(** * NXT Vulkan backend: usage transitions, texture teardown, serials and the
      ref-counted handle wrapper

    A shallow embedding of
    - [src/backend/vulkan/TextureVk.cpp]: the usage -> barrier mapping
      ([VulkanAccessFlags], [VulkanImageLayout], [VulkanPipelineStage],
      [VulkanAspectMask]), [Texture::~Texture] and [Texture::RecordBarrier];
    - [src/backend/vulkan/VulkanBackend.h]: the serial fields of [Device];
    - [src/tests/unittests/ObjectBaseTests.cpp]: the [Object] wrapper under test.

    Conventions.  A [uint32_t]/[uint64_t] value is a [Z] with its wrap-around
    written out; a bit mask is handled with [Z.land]/[Z.lor]; a call that
    reaches [UNREACHABLE()] yields [None]; calls made on the driver and on the
    device's helpers are appended to an explicit call log. *)

From Stdlib Require Import ZArith Lia Bool List.
From stdpp Require Import base option gmap.
Import ListNotations.

Local Open Scope Z_scope.

(* ===================================================================== *)
(** * The [nxt] enumerations used by the backend                          *)
(* ===================================================================== *)

Module nxt.

(** [nxt::TextureFormat], with the four enumerators that the [switch] of
    [VulkanImageFormat] lists. *)
Inductive TextureFormat : Set :=
| R8G8B8A8Unorm
| R8G8B8A8Uint
| B8G8R8A8Unorm
| D32FloatS8Uint.

(** [nxt::TextureDimension]: [VulkanImageType] knows [e2D] only. *)
Inductive TextureDimension : Set :=
| e2D.

(** Modelled from the spec: the enumerators of [nxt::TextureUsageBit] (the
    generated header nxt/nxtcpp.h is not among the sources).  The spec lists
    the usage bitmask as "transfer-source, transfer-destination, sampled,
    storage, output-attachment, present, or none"; the roles are numbered as
    successive bits in that order and [None] is the empty mask.  The
    underlying type is [uint32_t]. *)
Module TextureUsageBit.
Definition None : Z := 0.
Definition TransferSrc : Z := 1.
Definition TransferDst : Z := 2.
Definition Sampled : Z := 4.
Definition Storage : Z := 8.
Definition OutputAttachment : Z := 16.
Definition Present : Z := 32.
End TextureUsageBit.

(** [uint32_t] arithmetic wraps modulo [2^32]. *)
Definition wrap32 (z : Z) : Z := z mod 2 ^ 32.

(** Modelled from the spec: [nxt::HasZeroOrOneBits] (nxt/EnumClassBitmasks.h
    is not among the sources).  The spec separates "a usage that is a
    power-of-two single bit" from "a usage combining multiple bits (not a
    single bit)"; on the underlying unsigned integer that is the test
    [(v & (v - 1)) == 0], the subtraction wrapping at [v = 0]. *)
Definition HasZeroOrOneBits (value : Z) : bool :=
  Z.land value (wrap32 (value - 1)) =? 0.

(** [if (usage & mask)]: the [&] of two bitmask values converts to [bool]
    as "the intersection is not empty". *)
Definition HasUsage (usage mask : Z) : bool :=
  negb (Z.land usage mask =? 0).

End nxt.

(** Modelled from the spec: [TextureFormatHasDepth] and
    [TextureFormatHasStencil] of backend/Texture.cpp (not among the sources).
    The aspect "color vs. depth vs. stencil" is "derived solely from format":
    the combined depth/stencil format has both aspects, the three colour
    formats have neither. *)
Definition TextureFormatHasDepth (format : nxt.TextureFormat) : bool :=
  match format with
  | nxt.D32FloatS8Uint => true
  | _ => false
  end.

Definition TextureFormatHasStencil (format : nxt.TextureFormat) : bool :=
  match format with
  | nxt.D32FloatS8Uint => true
  | _ => false
  end.

Definition TextureFormatHasDepthOrStencil (format : nxt.TextureFormat) : bool :=
  TextureFormatHasDepth format || TextureFormatHasStencil format.

(* ===================================================================== *)
(** * The Vulkan constants the file uses (values of the Vulkan headers)   *)
(* ===================================================================== *)

(** [VkAccessFlagBits] *)
Definition VK_ACCESS_SHADER_READ_BIT : Z := 0x20.
Definition VK_ACCESS_SHADER_WRITE_BIT : Z := 0x40.
Definition VK_ACCESS_COLOR_ATTACHMENT_READ_BIT : Z := 0x80.
Definition VK_ACCESS_COLOR_ATTACHMENT_WRITE_BIT : Z := 0x100.
Definition VK_ACCESS_DEPTH_STENCIL_ATTACHMENT_READ_BIT : Z := 0x200.
Definition VK_ACCESS_DEPTH_STENCIL_ATTACHMENT_WRITE_BIT : Z := 0x400.
Definition VK_ACCESS_TRANSFER_READ_BIT : Z := 0x800.
Definition VK_ACCESS_TRANSFER_WRITE_BIT : Z := 0x1000.

(** [VkPipelineStageFlagBits] *)
Definition VK_PIPELINE_STAGE_TOP_OF_PIPE_BIT : Z := 0x1.
Definition VK_PIPELINE_STAGE_VERTEX_SHADER_BIT : Z := 0x8.
Definition VK_PIPELINE_STAGE_FRAGMENT_SHADER_BIT : Z := 0x80.
Definition VK_PIPELINE_STAGE_EARLY_FRAGMENT_TESTS_BIT : Z := 0x100.
Definition VK_PIPELINE_STAGE_LATE_FRAGMENT_TESTS_BIT : Z := 0x200.
Definition VK_PIPELINE_STAGE_COLOR_ATTACHMENT_OUTPUT_BIT : Z := 0x400.
Definition VK_PIPELINE_STAGE_COMPUTE_SHADER_BIT : Z := 0x800.
Definition VK_PIPELINE_STAGE_TRANSFER_BIT : Z := 0x1000.

(** [VkImageAspectFlagBits] *)
Definition VK_IMAGE_ASPECT_COLOR_BIT : Z := 0x1.
Definition VK_IMAGE_ASPECT_DEPTH_BIT : Z := 0x2.
Definition VK_IMAGE_ASPECT_STENCIL_BIT : Z := 0x4.

(** [VkImageLayout] is a plain enumeration. *)
Inductive VkImageLayout : Set :=
| VK_IMAGE_LAYOUT_UNDEFINED
| VK_IMAGE_LAYOUT_GENERAL
| VK_IMAGE_LAYOUT_COLOR_ATTACHMENT_OPTIMAL
| VK_IMAGE_LAYOUT_DEPTH_STENCIL_ATTACHMENT_OPTIMAL
| VK_IMAGE_LAYOUT_DEPTH_STENCIL_READ_ONLY_OPTIMAL
| VK_IMAGE_LAYOUT_SHADER_READ_ONLY_OPTIMAL
| VK_IMAGE_LAYOUT_TRANSFER_SRC_OPTIMAL
| VK_IMAGE_LAYOUT_TRANSFER_DST_OPTIMAL
| VK_IMAGE_LAYOUT_PREINITIALIZED
| VK_IMAGE_LAYOUT_PRESENT_SRC_KHR.

(** Handles are integers, [VK_NULL_HANDLE] is 0. *)
Definition VkImage := Z.
Definition VkCommandBuffer := Z.
Definition VkDeviceMemory := Z.
Definition VK_NULL_HANDLE : Z := 0.

Record VkImageSubresourceRange : Set := {
  aspectMask : Z;
  baseMipLevel : Z;
  levelCount : Z;
  baseArrayLayer : Z;
  layerCount : Z
}.

Record VkImageMemoryBarrier : Set := {
  srcAccessMask : Z;
  dstAccessMask : Z;
  oldLayout : VkImageLayout;
  newLayout : VkImageLayout;
  srcQueueFamilyIndex : Z;
  dstQueueFamilyIndex : Z;
  image : VkImage;
  subresourceRange : VkImageSubresourceRange
}.

(** The region of device memory bound to a resource. *)
Record DeviceMemoryAllocation : Set := {
  mMemory : VkDeviceMemory;
  mOffset : Z
}.

(** Calls that leave the texture code: on the driver ([device->fn.*]) and on
    the device's helpers.  The log lists them oldest first. *)
Inductive DeviceCall : Set :=
| MemoryAllocator_Free (allocation : DeviceMemoryAllocation)
| FencedDeleter_DeleteWhenUnused (handle : VkImage)
| fn_DestroyImage (handle : VkImage)
| fn_CmdPipelineBarrier (commands : VkCommandBuffer)
    (srcStageMask dstStageMask dependencyFlags : Z)
    (imageMemoryBarriers : list VkImageMemoryBarrier).

(* ===================================================================== *)
(** * backend/vulkan/TextureVk.cpp                                        *)
(* ===================================================================== *)

Module TextureVk.
Import nxt.

(** Computes which vulkan access type could be required for the given NXT
    usage. *)
Definition VulkanAccessFlags (usage : Z) (format : TextureFormat) : Z :=
  let flags := 0 in
  let flags :=
    if HasUsage usage TextureUsageBit.TransferSrc
    then Z.lor flags VK_ACCESS_TRANSFER_READ_BIT else flags in
  let flags :=
    if HasUsage usage TextureUsageBit.TransferDst
    then Z.lor flags VK_ACCESS_TRANSFER_WRITE_BIT else flags in
  let flags :=
    if HasUsage usage TextureUsageBit.Sampled
    then Z.lor flags VK_ACCESS_SHADER_READ_BIT else flags in
  let flags :=
    if HasUsage usage TextureUsageBit.Storage
    then Z.lor flags (Z.lor VK_ACCESS_SHADER_READ_BIT VK_ACCESS_SHADER_WRITE_BIT)
    else flags in
  let flags :=
    if HasUsage usage TextureUsageBit.OutputAttachment
    then
      if TextureFormatHasDepthOrStencil format
      then Z.lor flags (Z.lor VK_ACCESS_DEPTH_STENCIL_ATTACHMENT_READ_BIT
                              VK_ACCESS_DEPTH_STENCIL_ATTACHMENT_WRITE_BIT)
      else Z.lor flags (Z.lor VK_ACCESS_COLOR_ATTACHMENT_READ_BIT
                              VK_ACCESS_COLOR_ATTACHMENT_WRITE_BIT)
    else flags in
  flags.

(** Chooses which Vulkan image layout should be used for the given NXT
    usage.  The [switch] on a single-bit usage is a cascade of equality
    tests; its [default: UNREACHABLE()] is [None]. *)
Definition VulkanImageLayout (usage : Z) (format : TextureFormat)
  : option VkImageLayout :=
  if usage =? TextureUsageBit.None then Some VK_IMAGE_LAYOUT_UNDEFINED
  else if negb (HasZeroOrOneBits usage) then Some VK_IMAGE_LAYOUT_GENERAL
  else if usage =? TextureUsageBit.TransferDst
    then Some VK_IMAGE_LAYOUT_TRANSFER_DST_OPTIMAL
  else if usage =? TextureUsageBit.Sampled
    then Some VK_IMAGE_LAYOUT_SHADER_READ_ONLY_OPTIMAL
  else if (usage =? TextureUsageBit.TransferSrc)
          || (usage =? TextureUsageBit.Storage)
          || (usage =? TextureUsageBit.Present)
    then Some VK_IMAGE_LAYOUT_GENERAL
  else if usage =? TextureUsageBit.OutputAttachment
    then if TextureFormatHasDepthOrStencil format
         then Some VK_IMAGE_LAYOUT_DEPTH_STENCIL_ATTACHMENT_OPTIMAL
         else Some VK_IMAGE_LAYOUT_COLOR_ATTACHMENT_OPTIMAL
  else None.

(** Computes which Vulkan pipeline stage can access a texture in the given
    NXT usage. *)
Definition VulkanPipelineStage (usage : Z) (format : TextureFormat) : Z :=
  let flags := 0 in
  if usage =? TextureUsageBit.None then VK_PIPELINE_STAGE_TOP_OF_PIPE_BIT
  else
    let flags :=
      if HasUsage usage
           (Z.lor TextureUsageBit.TransferSrc TextureUsageBit.TransferDst)
      then Z.lor flags VK_PIPELINE_STAGE_TRANSFER_BIT else flags in
    let flags :=
      if HasUsage usage (Z.lor TextureUsageBit.Sampled TextureUsageBit.Storage)
      then Z.lor flags
             (Z.lor (Z.lor VK_PIPELINE_STAGE_VERTEX_SHADER_BIT
                           VK_PIPELINE_STAGE_FRAGMENT_SHADER_BIT)
                    VK_PIPELINE_STAGE_COMPUTE_SHADER_BIT)
      else flags in
    let flags :=
      if HasUsage usage TextureUsageBit.OutputAttachment
      then
        if TextureFormatHasDepthOrStencil format
        then Z.lor flags (Z.lor VK_PIPELINE_STAGE_EARLY_FRAGMENT_TESTS_BIT
                                VK_PIPELINE_STAGE_LATE_FRAGMENT_TESTS_BIT)
        else Z.lor flags VK_PIPELINE_STAGE_COLOR_ATTACHMENT_OUTPUT_BIT
      else flags in
    flags.

(** Computes which Vulkan texture aspects are relevant for the given NXT
    format. *)
Definition VulkanAspectMask (format : TextureFormat) : Z :=
  let isDepth := TextureFormatHasDepth format in
  let isStencil := TextureFormatHasStencil format in
  let flags := 0 in
  let flags := if isDepth then Z.lor flags VK_IMAGE_ASPECT_DEPTH_BIT else flags in
  let flags := if isStencil then Z.lor flags VK_IMAGE_ASPECT_STENCIL_BIT else flags in
  if negb (flags =? 0) then flags else VK_IMAGE_ASPECT_COLOR_BIT.

(** The fields of [Texture] (with those of [TextureBase] that the two
    methods below read through [GetFormat], [GetDimension] and
    [GetNumMipLevels]). *)
Record Texture : Set := {
  mFormat : TextureFormat;
  mDimension : TextureDimension;
  mNumMipLevels : Z;
  mHandle : VkImage;
  mMemoryAllocation : DeviceMemoryAllocation
}.

Definition GetFormat (self : Texture) : TextureFormat := mFormat self.
Definition GetNumMipLevels (self : Texture) : Z := mNumMipLevels self.
Definition GetHandle (self : Texture) : VkImage := mHandle self.

Definition GetVkAspectMask (self : Texture) : Z :=
  VulkanAspectMask (GetFormat self).

(** [Texture::~Texture]: the texture as the destructor leaves it and the
    log extended with the calls it made.  [Free] receives a pointer to the
    allocation; what it leaves behind there is decided by the allocator and
    is not tracked. *)
Definition destroy (self : Texture) (log : list DeviceCall)
  : Texture * list DeviceCall :=
  let log := log ++ [MemoryAllocator_Free (mMemoryAllocation self)] in
  if negb (mHandle self =? VK_NULL_HANDLE)
  then ({| mFormat := mFormat self;
           mDimension := mDimension self;
           mNumMipLevels := mNumMipLevels self;
           mHandle := VK_NULL_HANDLE;
           mMemoryAllocation := mMemoryAllocation self |},
        log ++ [FencedDeleter_DeleteWhenUnused (mHandle self)])
  else (self, log).

(** [Texture::RecordBarrier]: the log extended with the one
    [CmdPipelineBarrier], or [None] when a layout lookup is unreachable.  The
    [ASSERT] on the dimension holds for [e2D], the only dimension there is. *)
Definition RecordBarrier (self : Texture) (commands : VkCommandBuffer)
    (currentUsage targetUsage : Z) (log : list DeviceCall)
  : option (list DeviceCall) :=
  let format := GetFormat self in
  let srcStages := VulkanPipelineStage currentUsage format in
  let dstStages := VulkanPipelineStage targetUsage format in
  match VulkanImageLayout currentUsage format,
        VulkanImageLayout targetUsage format with
  | Some old, Some new =>
      let barrier :=
        {| srcAccessMask := VulkanAccessFlags currentUsage format;
           dstAccessMask := VulkanAccessFlags targetUsage format;
           oldLayout := old;
           newLayout := new;
           srcQueueFamilyIndex := 0;
           dstQueueFamilyIndex := 0;
           image := mHandle self;
           subresourceRange :=
             {| aspectMask := VulkanAspectMask format;
                baseMipLevel := 0;
                levelCount := GetNumMipLevels self;
                baseArrayLayer := 0;
                layerCount := 1 |} |} in
      Some (log ++ [fn_CmdPipelineBarrier commands srcStages dstStages 0 [barrier]])
  | _, _ => None
  end.

(** [Texture::TransitionUsageImpl], the pending command buffer of the
    device being passed in. *)
Definition TransitionUsageImpl (self : Texture) (pending : VkCommandBuffer)
    (currentUsage targetUsage : Z) (log : list DeviceCall)
  : option (list DeviceCall) :=
  RecordBarrier self pending currentUsage targetUsage log.

End TextureVk.

(* ===================================================================== *)
(** * backend/vulkan/VulkanBackend.h: the serials of [Device]              *)
(* ===================================================================== *)

Module VulkanBackend.

(** [Serial] is an unsigned 64-bit counter. *)
Definition Serial := Z.
Definition VkFence := Z.
Definition wrap64 (z : Z) : Z := z mod 2 ^ 64.

(** The submission-tracking members of [Device]. *)
Record Device : Set := {
  mFencesInFlight : list (VkFence * Serial);
  mUnusedFences : list VkFence;
  mNextSerial : Serial;
  mCompletedSerial : Serial
}.

(** A freshly constructed [Device], from the default member initialisers of
    the class: both containers empty, [mNextSerial = 1],
    [mCompletedSerial = 0]. *)
Definition initial : Device :=
  {| mFencesInFlight := [];
     mUnusedFences := [];
     mNextSerial := 1;
     mCompletedSerial := 0 |}.

(** Modelled from the spec: [Device::GetSerial] and
    [Device::SubmitPendingCommands] (VulkanBackend.cpp is not among the
    sources).  At submit time the recording buffer is "handed to the driver
    together with an unused-or-newly-created fence object, assigned the next
    Serial value (serial counter increments), and pushed onto the in-flight
    queue".  The fence that was picked is an argument. *)
Definition GetSerial (self : Device) : Serial := mNextSerial self.

Definition SubmitPendingCommands (fence : VkFence) (self : Device) : Device :=
  {| mFencesInFlight := mFencesInFlight self ++ [(fence, mNextSerial self)];
     mUnusedFences := mUnusedFences self;
     mNextSerial := wrap64 (mNextSerial self + 1);
     mCompletedSerial := mCompletedSerial self |}.

(** The serial of the most recent submission: serials are handed out from 1
    upwards, so it is the one before [mNextSerial] (0 before any submit). *)
Definition LastSubmittedSerial (self : Device) : Serial :=
  mNextSerial self - 1.

End VulkanBackend.

(* ===================================================================== *)
(** * tests/unittests/ObjectBaseTests.cpp                                  *)
(* ===================================================================== *)

Module ObjectBaseTests.

(** The handles of the test are [int*]: an address, or [nullptr] ([None]).
    The memory is a map from addresses to the values stored there; [failed]
    records that a gtest assertion of a helper failed. *)
Definition loc := positive.
Definition CType := option loc.

(** A C++ [int] has 32 bits: its values run from [INT_MIN] to [INT_MAX], and
    arithmetic that leaves this range wraps around in two's complement (what
    the compiled test does at [INT_MAX + 1]). *)
Definition INT_MAX : Z := 2147483647.
Definition INT_MIN : Z := -2147483648.

Definition is_int (z : Z) : bool := (INT_MIN <=? z) && (z <=? INT_MAX).

Definition wrap_int (z : Z) : Z := (z + 2 ^ 31) mod 2 ^ 32 - 2 ^ 31.

Record Memory : Type := {
  cells : gmap loc Z;
  failed : bool
}.

(** The [int]s of the memory: the cells that hold a value of [int].  An
    [int*] can only be read where there is one. *)
Definition ints (m : Memory) : gmap loc Z :=
  omap (fun v => if is_int v then Some v else None) (cells m).

Definition store (handle : loc) (v : Z) (m : Memory) : Memory :=
  {| cells := <[handle := v]> (cells m); failed := failed m |}.

Definition fail (m : Memory) : Memory :=
  {| cells := cells m; failed := true |}.

(** [Object::NxtReference]: [ASSERT_LT(0, *handle); *handle += 1;].  A failed
    [ASSERT_LT] records the failure and returns from the helper.  The
    addition is that of [int].  Reading through a pointer to no integer is
    undefined ([None]). *)
Definition NxtReference (handle : loc) (m : Memory) : option Memory :=
  match ints m !! handle with
  | Some v =>
      if 0 <? v then Some (store handle (wrap_int (v + 1)) m) else Some (fail m)
  | None => None
  end.

(** [Object::NxtRelease]: [ASSERT_LT(0, *handle); *handle -= 1;]. *)
Definition NxtRelease (handle : loc) (m : Memory) : option Memory :=
  match ints m !! handle with
  | Some v =>
      if 0 <? v then Some (store handle (wrap_int (v - 1)) m) else Some (fail m)
  | None => None
  end.

(** Modelled from the spec: the wrapper [nxt::ObjectBase<Object, int*>]
    (nxt/nxtcpp.h is not among the sources): "a thin RAII-style wrapper type
    around an opaque handle" with "an explicit ownership-qualified
    constructor pair -- adopt (take ownership, no increment) vs. retain
    (take a new reference, increment) -- plus a move type that transfers
    without incrementing and clears the source".  What the spec leaves open
    follows the comments of the tests: the destructor "removes a ref",
    "cloning takes a new ref", [Release] "consumes the C++ object into a C
    object and doesn't release", and assigning over a wrapper gives up the
    reference it held ([destination = Object()] brings the count back). *)
Record Object : Set := { handle : CType }.

(** [Object()] *)
Definition Object_default : Object := {| handle := None |}.

(** [Object(handle)]: retain. *)
Definition Object_ctor (h : CType) (m : Memory) : option (Object * Memory) :=
  match h with
  | Some l => m' ← NxtReference l m; Some ({| handle := h |}, m')
  | None => Some ({| handle := h |}, m)
  end.

(** [~Object()] *)
Definition Object_dtor (self : Object) (m : Memory) : option Memory :=
  match handle self with
  | Some l => NxtRelease l m
  | None => Some m
  end.

(** [Object::Acquire(handle)]: adopt. *)
Definition Acquire (h : CType) (m : Memory) : option (Object * Memory) :=
  Some ({| handle := h |}, m).

(** [Object(std::move(other))]: the new wrapper and [other] afterwards. *)
Definition Object_move_ctor (other : Object) (m : Memory)
  : option (Object * Object * Memory) :=
  Some ({| handle := handle other |}, {| handle := None |}, m).

(** [self = std::move(other)] for two distinct wrappers: [self] and [other]
    afterwards. *)
Definition Object_move_assign (self other : Object) (m : Memory)
  : option (Object * Object * Memory) :=
  m' ← Object_dtor self m;
  Some ({| handle := handle other |}, {| handle := None |}, m').

Definition Get (self : Object) : CType := handle self.

(** [self.Release()]: the handle and [self] afterwards. *)
Definition Release (self : Object) : CType * Object :=
  (handle self, {| handle := None |}).

(** [self.Clone()] *)
Definition Clone (self : Object) (m : Memory) : option (Object * Memory) :=
  Object_ctor (handle self) m.

(** [explicit operator bool] *)
Definition to_bool (self : Object) : bool :=
  match handle self with Some _ => true | None => false end.

(** The local [int refcount = 1;] of every test, at address 1. *)
Definition refcount : loc := 1%positive.
Definition initial : Memory := {| cells := {[ refcount := 1 ]}; failed := false |}.

Definition read (handle : loc) (m : Memory) : option Z := ints m !! handle.

(** [TEST(ObjectBase, CTypeConstructor)]: the two values the test compares
    with 2 and 1. *)
Definition CTypeConstructor : option (option Z * option Z) :=
  '(obj, m1) ← Object_ctor (Some refcount) initial;
  m2 ← Object_dtor obj m1;
  Some (read refcount m1, read refcount m2).

(** [TEST(ObjectBase, AcquireConstruction)]: compared with 1 and 0. *)
Definition AcquireConstruction : option (option Z * option Z) :=
  '(object, m1) ← Acquire (Some refcount) initial;
  m2 ← Object_dtor object m1;
  Some (read refcount m1, read refcount m2).

(** [TEST(ObjectBase, MoveConstructor)]: [source.Get()], [destination.Get()],
    the count after the move and the count after [destination = Object()]
    (the temporary is destroyed at the end of that statement). *)
Definition MoveConstructor : option (CType * CType * option Z * option Z) :=
  '(source, m1) ← Object_ctor (Some refcount) initial;
  '(destination, source, m2) ← Object_move_ctor source m1;
  '(destination', temporary, m3) ← Object_move_assign destination Object_default m2;
  m4 ← Object_dtor temporary m3;
  Some (Get source, Get destination, read refcount m2, read refcount m4).

(** [TEST(ObjectBase, MoveAssignment)] *)
Definition MoveAssignment : option (CType * CType * option Z * option Z) :=
  '(source, m1) ← Object_ctor (Some refcount) initial;
  '(destination, source, m2) ← Object_move_assign Object_default source m1;
  '(destination', temporary, m3) ← Object_move_assign destination Object_default m2;
  m4 ← Object_dtor temporary m3;
  Some (Get source, Get destination, read refcount m2, read refcount m4).

End ObjectBaseTests.

(* ===================================================================== *)
(** * Vocabulary of the statements                                        *)
(* ===================================================================== *)

(** A value of the [uint32_t]-backed usage enumeration. *)
Definition IsUsage (usage : Z) : Prop := 0 <= usage < 2 ^ 32.

(** Two different bit positions are set. *)
Definition MoreThanOneBit (usage : Z) : Prop :=
  exists i j, 0 <= i < j /\ Z.testbit usage i = true /\ Z.testbit usage j = true.

(** Exactly one of the 32 bit positions is set. *)
Definition SingleBit (usage : Z) : Prop :=
  exists k, 0 <= k < 32 /\ usage = 2 ^ k.

(** The stage bit [stage] is part of the stage mask [flags]. *)
Definition StageIncluded (flags stage : Z) : bool :=
  negb (Z.land flags stage =? 0).

(** How often [handle] was handed to [FencedDeleter::DeleteWhenUnused]. *)
Fixpoint times_queued (handle : VkImage) (log : list DeviceCall) : nat :=
  match log with
  | [] => O
  | FencedDeleter_DeleteWhenUnused h :: rest =>
      ((if (h =? handle)%Z then 1 else 0) + times_queued handle rest)%nat
  | _ :: rest => times_queued handle rest
  end.

(** How many images were destroyed through the driver directly. *)
Fixpoint direct_destroys (log : list DeviceCall) : nat :=
  match log with
  | [] => O
  | fn_DestroyImage _ :: rest => S (direct_destroys rest)
  | _ :: rest => direct_destroys rest
  end.

(** Three textures for the worked instances below. *)
Definition tex_rgba : TextureVk.Texture :=
  {| TextureVk.mFormat := nxt.R8G8B8A8Unorm;
     TextureVk.mDimension := nxt.e2D;
     TextureVk.mNumMipLevels := 1;
     TextureVk.mHandle := 7;
     TextureVk.mMemoryAllocation := {| mMemory := 3; mOffset := 0 |} |}.

Definition tex_rgba_mips : TextureVk.Texture :=
  {| TextureVk.mFormat := nxt.R8G8B8A8Unorm;
     TextureVk.mDimension := nxt.e2D;
     TextureVk.mNumMipLevels := 4;
     TextureVk.mHandle := 9;
     TextureVk.mMemoryAllocation := {| mMemory := 3; mOffset := 256 |} |}.

Definition tex_bgra : TextureVk.Texture :=
  {| TextureVk.mFormat := nxt.B8G8R8A8Unorm;
     TextureVk.mDimension := nxt.e2D;
     TextureVk.mNumMipLevels := 1;
     TextureVk.mHandle := 42;
     TextureVk.mMemoryAllocation := {| mMemory := 3; mOffset := 64 |} |}.

(** The access / stage / layout / aspect tuple of a usage transition. *)
Record Transition : Set := {
  t_srcAccess : Z;
  t_dstAccess : Z;
  t_srcStages : Z;
  t_dstStages : Z;
  t_oldLayout : VkImageLayout;
  t_newLayout : VkImageLayout;
  t_aspect : Z
}.

(** The tuple carried by a recorded [CmdPipelineBarrier] with one image
    barrier. *)
Definition transition_of (call : DeviceCall) : option Transition :=
  match call with
  | fn_CmdPipelineBarrier _ src dst _ [b] =>
      Some {| t_srcAccess := srcAccessMask b;
              t_dstAccess := dstAccessMask b;
              t_srcStages := src;
              t_dstStages := dst;
              t_oldLayout := oldLayout b;
              t_newLayout := newLayout b;
              t_aspect := aspectMask (subresourceRange b) |}
  | _ => None
  end.

(** The tuple of the last call of a log. *)
Definition last_transition (log : list DeviceCall) : option Transition :=
  match rev log with
  | call :: _ => transition_of call
  | [] => None
  end.

(** What [RecordBarrier] leaves to be observed about the transition: [None]
    when it did not return, otherwise the tuple of the call it logged. *)
Definition recorded_transition (self : TextureVk.Texture) (commands : VkCommandBuffer)
    (currentUsage targetUsage : Z) (log : list DeviceCall)
  : option (option Transition) :=
  option_map last_transition
    (TextureVk.RecordBarrier self commands currentUsage targetUsage log).

(* ===================================================================== *)
(** * backend/vulkan/TextureVk.cpp: image creation                         *)
(* ===================================================================== *)

(** [VkImageType], [VkFormat], [VkImageUsageFlagBits] and the other values
    that [Texture::Texture] writes into the create info (values of the Vulkan
    headers). *)
Definition VK_IMAGE_TYPE_2D : Z := 1.

Definition VK_FORMAT_R8G8B8A8_UNORM : Z := 37.
Definition VK_FORMAT_R8G8B8A8_UINT : Z := 41.
Definition VK_FORMAT_B8G8R8A8_UNORM : Z := 44.
Definition VK_FORMAT_D32_SFLOAT_S8_UINT : Z := 130.

Definition VK_IMAGE_USAGE_TRANSFER_SRC_BIT : Z := 0x1.
Definition VK_IMAGE_USAGE_TRANSFER_DST_BIT : Z := 0x2.
Definition VK_IMAGE_USAGE_SAMPLED_BIT : Z := 0x4.
Definition VK_IMAGE_USAGE_STORAGE_BIT : Z := 0x8.
Definition VK_IMAGE_USAGE_COLOR_ATTACHMENT_BIT : Z := 0x10.
Definition VK_IMAGE_USAGE_DEPTH_STENCIL_ATTACHMENT_BIT : Z := 0x20.

Definition VK_STRUCTURE_TYPE_IMAGE_CREATE_INFO : Z := 14.
Definition VK_SAMPLE_COUNT_1_BIT : Z := 0x1.
Definition VK_IMAGE_TILING_OPTIMAL : Z := 0.
Definition VK_SHARING_MODE_EXCLUSIVE : Z := 0.

Module TextureVkCreation.
Import nxt.

(** Converts an NXT texture dimension to a Vulkan image type. *)
Definition VulkanImageType (dimension : TextureDimension) : Z :=
  match dimension with
  | e2D => VK_IMAGE_TYPE_2D
  end.

(** Converts NXT texture format to Vulkan formats. *)
Definition VulkanImageFormat (format : TextureFormat) : Z :=
  match format with
  | R8G8B8A8Unorm => VK_FORMAT_R8G8B8A8_UNORM
  | R8G8B8A8Uint => VK_FORMAT_R8G8B8A8_UINT
  | B8G8R8A8Unorm => VK_FORMAT_B8G8R8A8_UNORM
  | D32FloatS8Uint => VK_FORMAT_D32_SFLOAT_S8_UINT
  end.

(** Converts the NXT usage flags to Vulkan usage flags.  Also needs the
    format to choose between color and depth attachment usages. *)
Definition VulkanImageUsage (usage : Z) (format : TextureFormat) : Z :=
  let flags := 0 in
  let flags :=
    if HasUsage usage TextureUsageBit.TransferSrc
    then Z.lor flags VK_IMAGE_USAGE_TRANSFER_SRC_BIT else flags in
  let flags :=
    if HasUsage usage TextureUsageBit.TransferDst
    then Z.lor flags VK_IMAGE_USAGE_TRANSFER_DST_BIT else flags in
  let flags :=
    if HasUsage usage TextureUsageBit.Sampled
    then Z.lor flags VK_IMAGE_USAGE_SAMPLED_BIT else flags in
  let flags :=
    if HasUsage usage TextureUsageBit.Storage
    then Z.lor flags VK_IMAGE_USAGE_STORAGE_BIT else flags in
  let flags :=
    if HasUsage usage TextureUsageBit.OutputAttachment
    then
      if TextureFormatHasDepthOrStencil format
      then Z.lor flags VK_IMAGE_USAGE_DEPTH_STENCIL_ATTACHMENT_BIT
      else Z.lor flags VK_IMAGE_USAGE_COLOR_ATTACHMENT_BIT
    else flags in
  flags.

(** What the constructor reads from [TextureBase] through [GetDimension],
    [GetFormat], [GetWidth], [GetHeight], [GetDepth], [GetNumMipLevels] and
    [GetAllowedUsage]. *)
Record TextureBase : Set := {
  mDimension : TextureDimension;
  mFormat : TextureFormat;
  mWidth : Z;
  mHeight : Z;
  mDepth : Z;
  mNumMipLevels : Z;
  mAllowedUsage : Z
}.

Record VkExtent3D : Set := {
  width : Z;
  height : Z;
  depth : Z
}.

Record VkImageCreateInfo : Set := {
  sType : Z;
  pNext : Z;
  flags : Z;
  imageType : Z;
  format : Z;
  extent : VkExtent3D;
  mipLevels : Z;
  arrayLayers : Z;
  samples : Z;
  tiling : Z;
  usage : Z;
  sharingMode : Z;
  queueFamilyIndexCount : Z;
  pQueueFamilyIndices : Z;
  initialLayout : VkImageLayout
}.

(** The [createInfo] that [Texture::Texture] fills in and passes to
    [vkCreateImage] (null pointers are 0).  The driver calls that follow it
    are not embedded. *)
Definition createInfo (base : TextureBase) : VkImageCreateInfo :=
  {| sType := VK_STRUCTURE_TYPE_IMAGE_CREATE_INFO;
     pNext := 0;
     flags := 0;
     imageType := VulkanImageType (mDimension base);
     format := VulkanImageFormat (mFormat base);
     extent := {| width := mWidth base; height := mHeight base; depth := mDepth base |};
     mipLevels := mNumMipLevels base;
     arrayLayers := 1;
     samples := VK_SAMPLE_COUNT_1_BIT;
     tiling := VK_IMAGE_TILING_OPTIMAL;
     usage := VulkanImageUsage (mAllowedUsage base) (mFormat base);
     sharingMode := VK_SHARING_MODE_EXCLUSIVE;
     queueFamilyIndexCount := 0;
     pQueueFamilyIndices := 0;
     initialLayout := VK_IMAGE_LAYOUT_UNDEFINED |}.

End TextureVkCreation.

(* ===================================================================== *)
(** * tests/unittests/ObjectBaseTests.cpp: the remaining tests             *)
(* ===================================================================== *)

Module ObjectBaseOtherTests.
Import ObjectBaseTests.

(** [TEST(ObjectBase, Clone)]: the count after cloning (compared with 3),
    [obj1.Get()], [obj2.Get()], and the count after both wrappers are gone
    ([obj2] is destroyed first). *)
Definition Clone_test : option (option Z * CType * CType * option Z) :=
  '(obj1, m1) ← Object_ctor (Some refcount) initial;
  '(obj2, m2) ← Clone obj1 m1;
  m3 ← Object_dtor obj2 m2;
  m4 ← Object_dtor obj1 m3;
  Some (read refcount m2, Get obj1, Get obj2, read refcount m4).

(** [TEST(ObjectBase, Release)]: the count after construction, the released
    handle, [obj.Get()] afterwards, the count after [Release] and the count
    after the scope. *)
Definition Release_test : option (option Z * CType * CType * option Z * option Z) :=
  '(obj, m1) ← Object_ctor (Some refcount) initial;
  let '(released, obj) := Release obj in
  m2 ← Object_dtor obj m1;
  Some (read refcount m1, released, Get obj, read refcount m1, read refcount m2).

(** [TEST(ObjectBase, OperatorBool)]: the condition [falseObj || !trueObj]. *)
Definition OperatorBool_test : option bool :=
  '(trueObj, m1) ← Object_ctor (Some refcount) initial;
  let falseObj := Object_default in
  Some (to_bool falseObj || negb (to_bool trueObj)).

End ObjectBaseOtherTests.

(* ===================================================================== *)
(** * Further vocabulary                                                  *)
(* ===================================================================== *)

(** A usage made of the six known bits only. *)
Definition KnownUsage (usage : Z) : Prop := 0 <= usage < 64.

(** The five usages that the access, stage and image-usage mappings test. *)
Definition MappedUsages : Z :=
  Z.lor (Z.lor (Z.lor (Z.lor nxt.TextureUsageBit.TransferSrc
                             nxt.TextureUsageBit.TransferDst)
                      nxt.TextureUsageBit.Sampled)
               nxt.TextureUsageBit.Storage)
        nxt.TextureUsageBit.OutputAttachment.

(** The access bits that stand for a write. *)
Definition WriteAccesses : Z :=
  Z.lor (Z.lor (Z.lor VK_ACCESS_TRANSFER_WRITE_BIT VK_ACCESS_SHADER_WRITE_BIT)
               VK_ACCESS_COLOR_ATTACHMENT_WRITE_BIT)
        VK_ACCESS_DEPTH_STENCIL_ATTACHMENT_WRITE_BIT.

(** The bit [bit] is part of the mask [flags]. *)
Definition FlagSet (flags bit : Z) : bool :=
  negb (Z.land flags bit =? 0).

(** [sub] is contained in the mask [sup]. *)
Definition Within (sub sup : Z) : Prop := Z.land sub sup = sub.

(** The image barrier of a logged [CmdPipelineBarrier] call together with its
    two stage masks. *)
Definition barrier_of (call : DeviceCall)
  : option (VkCommandBuffer * Z * Z * VkImageMemoryBarrier) :=
  match call with
  | fn_CmdPipelineBarrier commands src dst _ [b] => Some (commands, src, dst, b)
  | _ => None
  end.

(* ===================================================================== *)
(** * The tests of ObjectBaseTests.cpp run on the model                    *)
(* ===================================================================== *)

Example CTypeConstructor_passes :
  ObjectBaseTests.CTypeConstructor = Some (Some 2, Some 1).
Proof. vm_compute. reflexivity. Qed.

Example AcquireConstruction_passes :
  ObjectBaseTests.AcquireConstruction = Some (Some 1, Some 0).
Proof. vm_compute. reflexivity. Qed.

Example MoveConstructor_passes :
  ObjectBaseTests.MoveConstructor
  = Some (None, Some ObjectBaseTests.refcount, Some 2, Some 1).
Proof. vm_compute. reflexivity. Qed.

Example MoveAssignment_passes :
  ObjectBaseTests.MoveAssignment
  = Some (None, Some ObjectBaseTests.refcount, Some 2, Some 1).
Proof. vm_compute. reflexivity. Qed.

(* ===================================================================== *)
(** * Usage -> barrier mapping                                            *)
(* ===================================================================== *)

Section UsageMapping.
Import nxt TextureVk.

(** C3: for the [None] usage the source scope needs no wait: the layout is
    [VK_IMAGE_LAYOUT_UNDEFINED], the access mask is empty and the stage is
    [VK_PIPELINE_STAGE_TOP_OF_PIPE_BIT], whatever the format. *)
Theorem None_usage_needs_no_wait (f : TextureFormat) :
  VulkanImageLayout TextureUsageBit.None f = Some VK_IMAGE_LAYOUT_UNDEFINED
  /\ VulkanAccessFlags TextureUsageBit.None f = 0
  /\ VulkanPipelineStage TextureUsageBit.None f = VK_PIPELINE_STAGE_TOP_OF_PIPE_BIT.
Proof. repeat split. Qed.

(** C10: for the usage that is exactly [Present], the access mask and the
    stage mask are both empty for every format, while the [None] usage has
    the non-empty top-of-pipe stage. *)
Theorem Present_alone_has_empty_scopes (f : TextureFormat) :
  VulkanAccessFlags TextureUsageBit.Present f = 0
  /\ VulkanPipelineStage TextureUsageBit.Present f = 0
  /\ VulkanPipelineStage TextureUsageBit.None f = VK_PIPELINE_STAGE_TOP_OF_PIPE_BIT
  /\ VulkanPipelineStage TextureUsageBit.None f <> 0.
Proof. destruct f; repeat split; discriminate. Qed.

(** ** The access mask is a union over the usage bits *)

Lemma lor_eqb_0 (a b : Z) : (Z.lor a b =? 0) = (a =? 0) && (b =? 0).
Proof.
  destruct (a =? 0) eqn:Ha, (b =? 0) eqn:Hb; simpl;
    rewrite ?Z.eqb_eq, ?Z.eqb_neq in *; rewrite Z.lor_eq_0_iff; tauto.
Qed.

(** [usage & mask] of a union of usages. *)
Lemma HasUsage_lor_l (u1 u2 mask : Z) :
  HasUsage (Z.lor u1 u2) mask = HasUsage u1 mask || HasUsage u2 mask.
Proof.
  unfold HasUsage. rewrite Z.land_lor_distr_l, lor_eqb_0.
  now destruct (Z.land u1 mask =? 0), (Z.land u2 mask =? 0).
Qed.

(** [usage & (m1 | m2)]. *)
Lemma HasUsage_lor_r (usage m1 m2 : Z) :
  HasUsage usage (Z.lor m1 m2) = HasUsage usage m1 || HasUsage usage m2.
Proof.
  unfold HasUsage. rewrite Z.land_lor_distr_r, lor_eqb_0.
  now destruct (Z.land usage m1 =? 0), (Z.land usage m2 =? 0).
Qed.

Lemma HasUsage_None (mask : Z) : HasUsage TextureUsageBit.None mask = false.
Proof. reflexivity. Qed.

(** C4: [VulkanAccessFlags] distributes over the union of usage masks:
    the flags of [u1 | u2] are the flags of [u1] or-ed with those of [u2],
    for every format. *)
Theorem VulkanAccessFlags_union (u1 u2 : Z) (f : TextureFormat) :
  VulkanAccessFlags (Z.lor u1 u2) f
  = Z.lor (VulkanAccessFlags u1 f) (VulkanAccessFlags u2 f).
Proof.
  unfold VulkanAccessFlags.
  rewrite !HasUsage_lor_l.
  destruct (HasUsage u1 TextureUsageBit.TransferSrc),
           (HasUsage u2 TextureUsageBit.TransferSrc),
           (HasUsage u1 TextureUsageBit.TransferDst),
           (HasUsage u2 TextureUsageBit.TransferDst),
           (HasUsage u1 TextureUsageBit.Sampled),
           (HasUsage u2 TextureUsageBit.Sampled),
           (HasUsage u1 TextureUsageBit.Storage),
           (HasUsage u2 TextureUsageBit.Storage),
           (HasUsage u1 TextureUsageBit.OutputAttachment),
           (HasUsage u2 TextureUsageBit.OutputAttachment),
           (TextureFormatHasDepthOrStencil f);
    reflexivity.
Qed.

(** ** The stage mask *)

(** The stage mask of a usage other than [None], as a union of three
    independent contributions. *)
Lemma VulkanPipelineStage_not_None (usage : Z) (f : TextureFormat) :
  usage <> TextureUsageBit.None ->
  VulkanPipelineStage usage f
  = Z.lor (Z.lor
      (if HasUsage usage TextureUsageBit.TransferSrc
          || HasUsage usage TextureUsageBit.TransferDst
       then VK_PIPELINE_STAGE_TRANSFER_BIT else 0)
      (if HasUsage usage TextureUsageBit.Sampled
          || HasUsage usage TextureUsageBit.Storage
       then Z.lor (Z.lor VK_PIPELINE_STAGE_VERTEX_SHADER_BIT
                         VK_PIPELINE_STAGE_FRAGMENT_SHADER_BIT)
                  VK_PIPELINE_STAGE_COMPUTE_SHADER_BIT
       else 0))
      (if HasUsage usage TextureUsageBit.OutputAttachment
       then if TextureFormatHasDepthOrStencil f
            then Z.lor VK_PIPELINE_STAGE_EARLY_FRAGMENT_TESTS_BIT
                       VK_PIPELINE_STAGE_LATE_FRAGMENT_TESTS_BIT
            else VK_PIPELINE_STAGE_COLOR_ATTACHMENT_OUTPUT_BIT
       else 0).
Proof.
  intros Hne. unfold VulkanPipelineStage.
  destruct (usage =? TextureUsageBit.None) eqn:E.
  - apply Z.eqb_eq in E. contradiction.
  - rewrite !HasUsage_lor_r.
    destruct (HasUsage usage TextureUsageBit.TransferSrc),
             (HasUsage usage TextureUsageBit.TransferDst),
             (HasUsage usage TextureUsageBit.Sampled),
             (HasUsage usage TextureUsageBit.Storage),
             (HasUsage usage TextureUsageBit.OutputAttachment),
             (TextureFormatHasDepthOrStencil f);
      reflexivity.
Qed.

(** C5: for every usage mask and format, the stage mask contains the
    transfer stage exactly when [TransferSrc] or [TransferDst] is set, each
    of the vertex, fragment and compute shader stages exactly when
    [Sampled] or [Storage] is set, each of the early and late fragment-test
    stages exactly when [OutputAttachment] is set on a depth-or-stencil
    format, and the colour-attachment-output stage exactly when
    [OutputAttachment] is set on a colour format. *)
Theorem VulkanPipelineStage_stages (usage : Z) (f : TextureFormat) :
  let flags := VulkanPipelineStage usage f in
  let transfer := HasUsage usage TextureUsageBit.TransferSrc
                  || HasUsage usage TextureUsageBit.TransferDst in
  let shader := HasUsage usage TextureUsageBit.Sampled
                || HasUsage usage TextureUsageBit.Storage in
  let attachment := HasUsage usage TextureUsageBit.OutputAttachment in
  StageIncluded flags VK_PIPELINE_STAGE_TRANSFER_BIT = transfer
  /\ StageIncluded flags VK_PIPELINE_STAGE_VERTEX_SHADER_BIT = shader
  /\ StageIncluded flags VK_PIPELINE_STAGE_FRAGMENT_SHADER_BIT = shader
  /\ StageIncluded flags VK_PIPELINE_STAGE_COMPUTE_SHADER_BIT = shader
  /\ StageIncluded flags VK_PIPELINE_STAGE_EARLY_FRAGMENT_TESTS_BIT
     = attachment && TextureFormatHasDepthOrStencil f
  /\ StageIncluded flags VK_PIPELINE_STAGE_LATE_FRAGMENT_TESTS_BIT
     = attachment && TextureFormatHasDepthOrStencil f
  /\ StageIncluded flags VK_PIPELINE_STAGE_COLOR_ATTACHMENT_OUTPUT_BIT
     = attachment && negb (TextureFormatHasDepthOrStencil f).
Proof.
  intros flags transfer shader attachment.
  subst flags transfer shader attachment.
  destruct (Z.eq_dec usage TextureUsageBit.None) as [-> | Hne].
  - rewrite !HasUsage_None. destruct f; repeat split.
  - rewrite (VulkanPipelineStage_not_None usage f Hne).
    destruct (HasUsage usage TextureUsageBit.TransferSrc),
             (HasUsage usage TextureUsageBit.TransferDst),
             (HasUsage usage TextureUsageBit.Sampled),
             (HasUsage usage TextureUsageBit.Storage),
             (HasUsage usage TextureUsageBit.OutputAttachment),
             (TextureFormatHasDepthOrStencil f);
      repeat split.
Qed.

(** ** The layout *)

(** Subtracting one from a number with a set bit [i] below [j] leaves the
    bits from [j] upwards alone. *)
Lemma testbit_pred_above (u i j : Z) :
  0 <= i < j -> Z.testbit u i = true ->
  Z.testbit (u - 1) j = Z.testbit u j.
Proof.
  intros Hij Hi.
  assert (Hpow : 0 < 2 ^ j) by (apply Z.pow_pos_nonneg; lia).
  assert (Hr : u mod 2 ^ j <> 0).
  { intros E.
    assert (Hlow : Z.testbit (u mod 2 ^ j) i = true)
      by (rewrite Z.mod_pow2_bits_low by lia; exact Hi).
    rewrite E, Z.bits_0 in Hlow. discriminate. }
  assert (Hdiv : (u - 1) / 2 ^ j = u / 2 ^ j).
  { pose proof (Z.mod_pos_bound u (2 ^ j) Hpow) as Hb.
    pose proof (Z.div_mod u (2 ^ j) ltac:(lia)) as Hu.
    symmetry. apply (Z.div_unique_pos (u - 1) (2 ^ j) (u / 2 ^ j) (u mod 2 ^ j - 1)); lia. }
  rewrite !Z.testbit_odd, !Z.shiftr_div_pow2 by lia.
  now rewrite Hdiv.
Qed.

(** The bit trick answers "no" as soon as two bits are set. *)
Lemma HasZeroOrOneBits_two_bits (usage : Z) :
  IsUsage usage -> MoreThanOneBit usage -> HasZeroOrOneBits usage = false.
Proof.
  intros Hu (i & j & Hij & Hi & Hj).
  unfold HasZeroOrOneBits, wrap32. apply Z.eqb_neq. intros E.
  assert (Hpos : usage <> 0) by (intros ->; rewrite Z.bits_0 in Hi; discriminate).
  unfold IsUsage in Hu.
  rewrite Z.mod_small in E by lia.
  assert (Hbit : Z.testbit (Z.land usage (usage - 1)) j = true).
  { rewrite Z.land_spec, (testbit_pred_above usage i j Hij Hi), Hj. reflexivity. }
  rewrite E, Z.bits_0 in Hbit. discriminate.
Qed.

(** It answers "yes" on the empty mask and on every single bit. *)
Lemma HasZeroOrOneBits_single_bit (usage : Z) :
  usage = 0 \/ SingleBit usage -> HasZeroOrOneBits usage = true.
Proof.
  intros [-> | (k & Hk & ->)]; [reflexivity|].
  unfold HasZeroOrOneBits, wrap32. apply Z.eqb_eq.
  assert (Hlt : 2 ^ k < 2 ^ 32) by (apply Z.pow_lt_mono_r; lia).
  assert (Hpow : 0 < 2 ^ k) by (apply Z.pow_pos_nonneg; lia).
  rewrite Z.mod_small by lia.
  replace (2 ^ k - 1) with (Z.ones k) by (rewrite Z.ones_equiv; lia).
  apply Z.bits_inj'. intros n Hn.
  rewrite Z.land_spec, Z.bits_0, Z.pow2_bits_eqb by lia.
  destruct (Z.eqb_spec k n) as [-> | Hne]; [|reflexivity].
  rewrite Z.ones_spec_high by lia. reflexivity.
Qed.

(** C1: a usage with more than one bit set has the general layout, for
    every format. *)
Theorem several_bits_general_layout (usage : Z) (f : TextureFormat) :
  IsUsage usage -> MoreThanOneBit usage ->
  VulkanImageLayout usage f = Some VK_IMAGE_LAYOUT_GENERAL.
Proof.
  intros Hu Hmany. unfold VulkanImageLayout.
  rewrite (HasZeroOrOneBits_two_bits usage Hu Hmany).
  destruct (usage =? TextureUsageBit.None) eqn:E; [|reflexivity].
  apply Z.eqb_eq in E. subst usage.
  destruct Hmany as (i & _ & _ & Hi & _).
  rewrite Z.bits_0 in Hi. discriminate.
Qed.

Lemma several_bits_general_layout_witness :
  IsUsage (Z.lor TextureUsageBit.Sampled TextureUsageBit.Storage)
  /\ MoreThanOneBit (Z.lor TextureUsageBit.Sampled TextureUsageBit.Storage)
  /\ VulkanImageLayout (Z.lor TextureUsageBit.Sampled TextureUsageBit.Storage)
       D32FloatS8Uint
     = Some VK_IMAGE_LAYOUT_GENERAL.
Proof.
  assert (Hu : IsUsage (Z.lor TextureUsageBit.Sampled TextureUsageBit.Storage))
    by (split; now vm_compute).
  assert (Hm : MoreThanOneBit (Z.lor TextureUsageBit.Sampled TextureUsageBit.Storage))
    by (exists 2, 3; repeat split; lia).
  split; [exact Hu|]. split; [exact Hm|].
  apply (several_bits_general_layout _ D32FloatS8Uint Hu Hm).
Defined.

(** C2, as the code has it: of the six single-bit usages, [TransferDst],
    [Sampled] and [OutputAttachment] get their dedicated layout (for
    [OutputAttachment] the depth/stencil or the colour attachment layout,
    by format), whereas [TransferSrc], [Storage] and [Present] get the
    general layout. *)
Theorem single_bit_layouts (f : TextureFormat) :
  VulkanImageLayout TextureUsageBit.TransferDst f
    = Some VK_IMAGE_LAYOUT_TRANSFER_DST_OPTIMAL
  /\ VulkanImageLayout TextureUsageBit.Sampled f
    = Some VK_IMAGE_LAYOUT_SHADER_READ_ONLY_OPTIMAL
  /\ VulkanImageLayout TextureUsageBit.OutputAttachment f
    = Some (if TextureFormatHasDepthOrStencil f
            then VK_IMAGE_LAYOUT_DEPTH_STENCIL_ATTACHMENT_OPTIMAL
            else VK_IMAGE_LAYOUT_COLOR_ATTACHMENT_OPTIMAL)
  /\ VulkanImageLayout TextureUsageBit.TransferSrc f = Some VK_IMAGE_LAYOUT_GENERAL
  /\ VulkanImageLayout TextureUsageBit.Storage f = Some VK_IMAGE_LAYOUT_GENERAL
  /\ VulkanImageLayout TextureUsageBit.Present f = Some VK_IMAGE_LAYOUT_GENERAL.
Proof. destruct f; repeat split. Qed.

(** C2 as stated fails: [TransferSrc] is a single bit, and its layout is
    the general one, not the dedicated transfer-source layout. *)
Lemma TransferSrc_layout_is_general :
  SingleBit TextureUsageBit.TransferSrc
  /\ VulkanImageLayout TextureUsageBit.TransferSrc R8G8B8A8Unorm
     = Some VK_IMAGE_LAYOUT_GENERAL
  /\ VulkanImageLayout TextureUsageBit.TransferSrc R8G8B8A8Unorm
     <> Some VK_IMAGE_LAYOUT_TRANSFER_SRC_OPTIMAL.
Proof.
  split; [exists 0; split; [lia | reflexivity]|].
  split; [reflexivity | discriminate].
Qed.

(** A single bit that is none of the six usages reaches [UNREACHABLE()]. *)
Lemma unknown_single_bit_unreachable (k : Z) (f : TextureFormat) :
  6 <= k < 32 -> VulkanImageLayout (2 ^ k) f = None.
Proof.
  intros Hk. unfold VulkanImageLayout.
  rewrite (HasZeroOrOneBits_single_bit (2 ^ k)) by (right; exists k; split; [lia | reflexivity]).
  assert (Hbig : 2 ^ 6 <= 2 ^ k) by (apply Z.pow_le_mono_r; lia).
  change (2 ^ 6) with 64 in Hbig.
  unfold TextureUsageBit.None, TextureUsageBit.TransferDst, TextureUsageBit.Sampled,
    TextureUsageBit.TransferSrc, TextureUsageBit.Storage, TextureUsageBit.Present,
    TextureUsageBit.OutputAttachment.
  repeat match goal with
         | |- context [2 ^ k =? ?c] =>
             let E := fresh in
             destruct (Z.eqb_spec (2 ^ k) c) as [E | E]; [lia|]; clear E
         end.
  reflexivity.
Qed.

End UsageMapping.

(* ===================================================================== *)
(** * [Texture::RecordBarrier] and [Texture::~Texture]                     *)
(* ===================================================================== *)

Section TextureMethods.
Import nxt TextureVk.

Lemma last_transition_snoc (log : list DeviceCall) (call : DeviceCall) :
  last_transition (log ++ [call]) = transition_of call.
Proof. unfold last_transition. now rewrite rev_app_distr. Qed.

(** When both layouts exist, [RecordBarrier] returns, and the barrier it
    logged carries the values of the four mapping functions. *)
Lemma RecordBarrier_records (self : Texture) (commands : VkCommandBuffer)
    (currentUsage targetUsage : Z) (log : list DeviceCall)
    (old new : VkImageLayout) :
  VulkanImageLayout currentUsage (GetFormat self) = Some old ->
  VulkanImageLayout targetUsage (GetFormat self) = Some new ->
  recorded_transition self commands currentUsage targetUsage log
  = Some (Some {|
      t_srcAccess := VulkanAccessFlags currentUsage (GetFormat self);
      t_dstAccess := VulkanAccessFlags targetUsage (GetFormat self);
      t_srcStages := VulkanPipelineStage currentUsage (GetFormat self);
      t_dstStages := VulkanPipelineStage targetUsage (GetFormat self);
      t_oldLayout := old;
      t_newLayout := new;
      t_aspect := VulkanAspectMask (GetFormat self) |}).
Proof.
  intros Hold Hnew. unfold recorded_transition, RecordBarrier.
  rewrite Hold, Hnew. simpl. now rewrite last_transition_snoc.
Qed.

(** C6: the access / stage / layout / aspect tuple of a recorded transition
    is determined by (currentUsage, targetUsage, format): two evaluations on
    textures of the same format, whatever their handles, mip counts, command
    buffers and earlier calls, agree on it (and on whether they return). *)
Theorem transition_is_function_of_usages_and_format
    (t1 t2 : Texture) (c1 c2 : VkCommandBuffer) (log1 log2 : list DeviceCall)
    (currentUsage targetUsage : Z) :
  GetFormat t1 = GetFormat t2 ->
  recorded_transition t1 c1 currentUsage targetUsage log1
  = recorded_transition t2 c2 currentUsage targetUsage log2.
Proof.
  intros Hf. unfold recorded_transition, RecordBarrier. rewrite Hf.
  destruct (VulkanImageLayout currentUsage (GetFormat t2)) as [old|];
    [|reflexivity].
  destruct (VulkanImageLayout targetUsage (GetFormat t2)) as [new|];
    [|reflexivity].
  simpl. now rewrite !last_transition_snoc.
Qed.

Lemma transition_is_function_of_usages_and_format_witness :
  GetFormat tex_rgba = GetFormat tex_rgba_mips
  /\ recorded_transition tex_rgba 1 TextureUsageBit.None TextureUsageBit.Sampled []
     = recorded_transition tex_rgba_mips 2
         TextureUsageBit.None TextureUsageBit.Sampled
         [FencedDeleter_DeleteWhenUnused 5].
Proof.
  split; [reflexivity|].
  apply (transition_is_function_of_usages_and_format tex_rgba tex_rgba_mips 1 2 []
           [FencedDeleter_DeleteWhenUnused 5]
           TextureUsageBit.None TextureUsageBit.Sampled).
  reflexivity.
Defined.

(** The transition [None -> Sampled] on a colour texture, evaluated. *)
Example None_to_Sampled_recorded :
  recorded_transition tex_rgba 1 TextureUsageBit.None TextureUsageBit.Sampled []
  = Some (Some {| t_srcAccess := 0;
                  t_dstAccess := VK_ACCESS_SHADER_READ_BIT;
                  t_srcStages := VK_PIPELINE_STAGE_TOP_OF_PIPE_BIT;
                  t_dstStages := 0x888;
                  t_oldLayout := VK_IMAGE_LAYOUT_UNDEFINED;
                  t_newLayout := VK_IMAGE_LAYOUT_SHADER_READ_ONLY_OPTIMAL;
                  t_aspect := VK_IMAGE_ASPECT_COLOR_BIT |}).
Proof. reflexivity. Qed.

(** ** The destructor *)

Lemma times_queued_app (h : VkImage) (l1 l2 : list DeviceCall) :
  times_queued h (l1 ++ l2) = (times_queued h l1 + times_queued h l2)%nat.
Proof.
  induction l1 as [|call l1 IH]; simpl; [reflexivity|].
  destruct call; rewrite IH; lia.
Qed.

Lemma direct_destroys_app (l1 l2 : list DeviceCall) :
  direct_destroys (l1 ++ l2) = (direct_destroys l1 + direct_destroys l2)%nat.
Proof.
  induction l1 as [|call l1 IH]; simpl; [reflexivity|].
  destruct call; rewrite IH; lia.
Qed.

(** A texture without a handle: the destructor frees the memory and hands
    nothing to the deleter. *)
Lemma destroy_null_handle (self : Texture) (log : list DeviceCall) :
  mHandle self = VK_NULL_HANDLE ->
  destroy self log = (self, log ++ [MemoryAllocator_Free (mMemoryAllocation self)]).
Proof. intros E. unfold destroy. now rewrite E. Qed.

Lemma destroy_live_handle (self : Texture) (log : list DeviceCall) :
  mHandle self <> VK_NULL_HANDLE ->
  destroy self log
  = ({| mFormat := mFormat self; mDimension := mDimension self;
        mNumMipLevels := mNumMipLevels self; mHandle := VK_NULL_HANDLE;
        mMemoryAllocation := mMemoryAllocation self |},
     (log ++ [MemoryAllocator_Free (mMemoryAllocation self)])
       ++ [FencedDeleter_DeleteWhenUnused (mHandle self)]).
Proof.
  intros Hne. unfold destroy.
  destruct (Z.eqb_spec (mHandle self) VK_NULL_HANDLE); [contradiction | reflexivity].
Qed.

(** C8: the destructor of a texture with a live handle makes no direct
    [DestroyImage] call, hands the handle to [DeleteWhenUnused] exactly
    once and leaves the stored handle null; run again on what it left, it
    hands nothing to the deleter and still destroys nothing directly. *)
Theorem destroy_defers_handle_once (self : Texture) (log : list DeviceCall) :
  mHandle self <> VK_NULL_HANDLE ->
  let after := destroy self log in
  let again := destroy (fst after) (snd after) in
  direct_destroys (snd after) = direct_destroys log
  /\ times_queued (mHandle self) (snd after) = S (times_queued (mHandle self) log)
  /\ (forall h, h <> mHandle self ->
        times_queued h (snd after) = times_queued h log)
  /\ GetHandle (fst after) = VK_NULL_HANDLE
  /\ (forall h, times_queued h (snd again) = times_queued h (snd after))
  /\ direct_destroys (snd again) = direct_destroys (snd after)
  /\ GetHandle (fst again) = VK_NULL_HANDLE.
Proof.
  intros Hne after again. subst again after.
  rewrite (destroy_live_handle self log Hne). cbn [fst snd].
  rewrite destroy_null_handle by reflexivity. cbn [fst snd].
  rewrite !direct_destroys_app. cbn [direct_destroys].
  repeat split; try lia.
  - rewrite !times_queued_app. cbn [times_queued].
    rewrite Z.eqb_refl. lia.
  - intros h Hh. rewrite !times_queued_app. cbn [times_queued].
    destruct (Z.eqb_spec (mHandle self) h); [congruence | lia].
  - intros h. rewrite (times_queued_app h _ [_]). cbn [times_queued]. lia.
Qed.

Lemma destroy_defers_handle_once_witness :
  mHandle tex_bgra <> VK_NULL_HANDLE
  /\ times_queued 42 (snd (destroy tex_bgra [])) = 1%nat
  /\ times_queued 42
       (snd (destroy (fst (destroy tex_bgra [])) (snd (destroy tex_bgra []))))
     = 1%nat.
Proof.
  assert (Hne : mHandle tex_bgra <> VK_NULL_HANDLE) by discriminate.
  destruct (destroy_defers_handle_once tex_bgra [] Hne)
    as (_ & Hq & _ & _ & Hagain & _).
  split; [exact Hne|]. split; [exact Hq|].
  rewrite (Hagain 42). exact Hq.
Defined.

End TextureMethods.

(* ===================================================================== *)
(** * Serials of the device                                               *)
(* ===================================================================== *)

Section Serials.
Import VulkanBackend.

(** C7: in the initial device state the completed serial is 0 and the next
    serial is 1; the first submission is tagged with serial 1; and the
    completed serial does not exceed the last-submitted serial. *)
Theorem initial_serials :
  mCompletedSerial initial = 0
  /\ mNextSerial initial = 1
  /\ GetSerial initial = 1
  /\ (forall fence,
        mFencesInFlight (SubmitPendingCommands fence initial) = [(fence, 1)])
  /\ mCompletedSerial initial <= LastSubmittedSerial initial.
Proof. repeat split. unfold LastSubmittedSerial. simpl. lia. Qed.

(** Submitting keeps the completed serial at or below the last-submitted
    one, as long as the 64-bit counter has not run out. *)
Lemma SubmitPendingCommands_keeps_order (fence : VkFence) (d : Device) :
  0 <= mNextSerial d < 2 ^ 64 - 1 ->
  mCompletedSerial d <= LastSubmittedSerial d ->
  mCompletedSerial (SubmitPendingCommands fence d)
  <= LastSubmittedSerial (SubmitPendingCommands fence d).
Proof.
  intros Hrange Hinv. unfold LastSubmittedSerial, SubmitPendingCommands, wrap64 in *.
  simpl. rewrite Z.mod_small by lia. lia.
Qed.

End Serials.

(* ===================================================================== *)
(** * The ref-counted wrapper                                             *)
(* ===================================================================== *)

Section Wrapper.
Import ObjectBaseTests.

(** An [int] of the memory is a cell whose value lies in the range of [int]. *)
Lemma ints_lookup (m : Memory) (h : loc) (c : Z) :
  ints m !! h = Some c <-> cells m !! h = Some c /\ INT_MIN <= c <= INT_MAX.
Proof.
  unfold ints. rewrite lookup_omap.
  destruct (cells m !! h) as [v|]; simpl.
  - unfold is_int.
    destruct (Z.leb_spec INT_MIN v), (Z.leb_spec v INT_MAX); simpl;
      split; try (intros [= <-]; split; [reflexivity | lia]);
      try (intros [[= <-] ?]; reflexivity || lia); discriminate.
  - split; [discriminate | intros [E _]; discriminate E].
Qed.

Lemma wrap_int_id (z : Z) : INT_MIN <= z <= INT_MAX -> wrap_int z = z.
Proof.
  unfold wrap_int, INT_MIN, INT_MAX. intros Hz.
  change (2 ^ 31) with 2147483648. change (2 ^ 32) with 4294967296.
  rewrite Z.mod_small by lia. lia.
Qed.

Lemma read_store (h : loc) (v : Z) (m : Memory) :
  INT_MIN <= v <= INT_MAX -> read h (store h v m) = Some v.
Proof.
  intros Hv. unfold read. apply ints_lookup. split; [|exact Hv].
  unfold store. simpl. apply lookup_insert_eq.
Qed.

Lemma read_store_ne (l h : loc) (v : Z) (m : Memory) :
  l <> h -> read h (store l v m) = read h m.
Proof.
  intros Hne. unfold read, ints, store. simpl.
  rewrite !lookup_omap, lookup_insert_ne by exact Hne. reflexivity.
Qed.

Lemma NxtReference_live (h : loc) (c : Z) (m : Memory) :
  ints m !! h = Some c -> 0 < c < INT_MAX ->
  NxtReference h m = Some (store h (c + 1) m).
Proof.
  intros Hc Hpos. unfold NxtReference. rewrite Hc.
  apply ints_lookup in Hc. destruct Hc as [_ Hr].
  rewrite wrap_int_id by lia.
  destruct (Z.ltb_spec 0 c); [reflexivity | lia].
Qed.

Lemma NxtRelease_live (h : loc) (c : Z) (m : Memory) :
  ints m !! h = Some c -> 0 < c ->
  NxtRelease h m = Some (store h (c - 1) m).
Proof.
  intros Hc Hpos. unfold NxtRelease. rewrite Hc.
  apply ints_lookup in Hc. destruct Hc as [_ Hr].
  rewrite wrap_int_id by (unfold INT_MIN in *; lia).
  destruct (Z.ltb_spec 0 c); [reflexivity | lia].
Qed.

(** Releasing one handle leaves the integer behind another one alone. *)
Lemma NxtRelease_other (l h : loc) (m m' : Memory) :
  l <> h -> NxtRelease l m = Some m' -> read h m' = read h m.
Proof.
  intros Hne. unfold NxtRelease.
  destruct (ints m !! l) as [v|]; [|discriminate].
  destruct (0 <? v); intros [= <-]; [|reflexivity].
  now apply read_store_ne.
Qed.

(** Writing a count and then the original one back gives the memory back. *)
Lemma store_store_id (h : loc) (c v : Z) (m : Memory) :
  ints m !! h = Some c -> store h c (store h v m) = m.
Proof.
  intros Hc. apply ints_lookup in Hc. destruct Hc as [Hc _].
  destruct m as [mem flag]. unfold store. simpl in *.
  rewrite insert_insert_eq, insert_id by exact Hc. reflexivity.
Qed.

(** The destructor of a wrapper that holds a handle with a positive count
    takes one off. *)
Lemma Object_dtor_live (obj : Object) (h : loc) (c : Z) (m : Memory) :
  Get obj = Some h -> ints m !! h = Some c -> 0 < c ->
  Object_dtor obj m = Some (store h (c - 1) m)
  /\ read h (store h (c - 1) m) = Some (c - 1).
Proof.
  intros Hobj Hc Hpos. unfold Object_dtor. unfold Get in Hobj. rewrite Hobj.
  split; [apply (NxtRelease_live h c m Hc Hpos)|].
  apply ints_lookup in Hc. destruct Hc as [_ Hr].
  apply read_store. unfold INT_MIN in *. lia.
Qed.

(** C9: for a handle [h] whose count [c] is positive and below [INT_MAX],
    - constructing a wrapper from [h] yields a wrapper holding [h] and the
      count [c + 1], and destroying that wrapper gives the memory back;
    - destroying a wrapper that holds [h] yields the count [c - 1];
    - [Acquire] yields a wrapper holding [h] without touching the count, and
      that wrapper owns the reference: its destructor yields [c - 1];
    - move construction, and move assignment onto an empty wrapper, leave
      the memory as it is, the source holding null and the destination
      holding what the source held; destroying the source afterwards changes
      nothing, and when the handle moved was [h], destroying the destination
      is what takes the count to [c - 1];
    - move assignment onto any wrapper that does not itself hold [h]
      leaves the count of [h] at [c] and the source holding null. *)
Theorem wrapper_reference_counting (h : loc) (c : Z) (m : Memory) :
  ints m !! h = Some c -> 0 < c < INT_MAX ->
  (exists obj m1,
     Object_ctor (Some h) m = Some (obj, m1)
     /\ Get obj = Some h
     /\ read h m1 = Some (c + 1)
     /\ Object_dtor obj m1 = Some m)
  /\ (exists m', Object_dtor {| handle := Some h |} m = Some m'
                 /\ read h m' = Some (c - 1))
  /\ (exists obj,
        Acquire (Some h) m = Some (obj, m)
        /\ Get obj = Some h
        /\ exists m', Object_dtor obj m = Some m' /\ read h m' = Some (c - 1))
  /\ (forall source,
        exists dst src,
          Object_move_ctor source m = Some (dst, src, m)
          /\ Get src = None
          /\ Get dst = Get source
          /\ Object_dtor src m = Some m
          /\ (Get source = Some h ->
              exists m', Object_dtor dst m = Some m' /\ read h m' = Some (c - 1)))
  /\ (forall source,
        exists dst src,
          Object_move_assign Object_default source m = Some (dst, src, m)
          /\ Get src = None
          /\ Get dst = Get source
          /\ Object_dtor src m = Some m
          /\ (Get source = Some h ->
              exists m', Object_dtor dst m = Some m' /\ read h m' = Some (c - 1)))
  /\ (forall self other,
        handle self <> Some h ->
        forall dst src m',
          Object_move_assign self other m = Some (dst, src, m') ->
          Get dst = handle other /\ Get src = None /\ read h m' = Some c).
Proof.
  intros Hc Hpos.
  assert (Hrange : INT_MIN <= c <= INT_MAX) by (apply ints_lookup in Hc; tauto).
  assert (Hup : read h (store h (c + 1) m) = Some (c + 1))
    by (apply read_store; unfold INT_MIN, INT_MAX in *; lia).
  split; [|split; [|split; [|split; [|split]]]].
  - exists {| handle := Some h |}, (store h (c + 1) m).
    split; [|split; [reflexivity | split; [exact Hup|]]].
    + unfold Object_ctor. now rewrite (NxtReference_live h c m Hc Hpos).
    + unfold Object_dtor. simpl.
      rewrite (NxtRelease_live h (c + 1) _ Hup) by lia.
      replace (c + 1 - 1) with c by lia.
      now rewrite store_store_id.
  - exists (store h (c - 1) m).
    apply (Object_dtor_live {| handle := Some h |} h c m eq_refl Hc). lia.
  - exists {| handle := Some h |}. split; [reflexivity|]. split; [reflexivity|].
    exists (store h (c - 1) m).
    apply (Object_dtor_live {| handle := Some h |} h c m eq_refl Hc). lia.
  - intros source. exists {| handle := handle source |}, {| handle := None |}.
    split; [reflexivity|]. split; [reflexivity|]. split; [reflexivity|].
    split; [reflexivity|]. intros Hs.
    exists (store h (c - 1) m).
    apply (Object_dtor_live {| handle := handle source |} h c m Hs Hc). lia.
  - intros source. exists {| handle := handle source |}, {| handle := None |}.
    split; [reflexivity|]. split; [reflexivity|]. split; [reflexivity|].
    split; [reflexivity|]. intros Hs.
    exists (store h (c - 1) m).
    apply (Object_dtor_live {| handle := handle source |} h c m Hs Hc). lia.
  - intros self other Hself dst src m' Hmove.
    unfold Object_move_assign, Object_dtor in Hmove.
    destruct (handle self) as [l|] eqn:Hs; simpl in Hmove.
    + destruct (NxtRelease l m) as [m1|] eqn:Hrel; simpl in Hmove; [|discriminate].
      injection Hmove as <- <- <-. split; [reflexivity|]. split; [reflexivity|].
      rewrite (NxtRelease_other l h m m1); [exact Hc | congruence | exact Hrel].
    + injection Hmove as <- <- <-. split; [reflexivity|]. split; [reflexivity|].
      exact Hc.
Qed.

Lemma wrapper_reference_counting_witness :
  ints initial !! refcount = Some 1
  /\ 0 < 1 < INT_MAX
  /\ (exists obj m1,
        Object_ctor (Some refcount) initial = Some (obj, m1)
        /\ Get obj = Some refcount
        /\ read refcount m1 = Some (1 + 1)
        /\ Object_dtor obj m1 = Some initial).
Proof.
  assert (Hc : ints initial !! refcount = Some 1) by (now vm_compute).
  assert (Hpos : 0 < 1 < INT_MAX) by (split; now vm_compute).
  split; [exact Hc|]. split; [exact Hpos|].
  exact (proj1 (wrapper_reference_counting refcount 1 initial Hc Hpos)).
Defined.

(** A handle whose count is not positive trips the assertion of the helper:
    the count stays and the failure is recorded. *)
Lemma Object_ctor_dead_handle (h : loc) (c : Z) (m : Memory) :
  ints m !! h = Some c -> c <= 0 ->
  Object_ctor (Some h) m = Some ({| handle := Some h |}, fail m).
Proof.
  intros Hc Hle. unfold Object_ctor, NxtReference. rewrite Hc.
  destruct (Z.ltb_spec 0 c); [lia | reflexivity].
Qed.


End Wrapper.


(* ===================================================================== *)
(** * Image creation                                                      *)
(* ===================================================================== *)

Section ImageCreation.
Import nxt TextureVkCreation.

(** X1: distinct NXT formats are created as distinct Vulkan formats. *)
Theorem VulkanImageFormat_injective (f1 f2 : TextureFormat) :
  VulkanImageFormat f1 = VulkanImageFormat f2 -> f1 = f2.
Proof. destruct f1, f2; intros E; try reflexivity; discriminate E. Qed.

Lemma VulkanImageFormat_injective_witness :
  VulkanImageFormat B8G8R8A8Unorm = VulkanImageFormat B8G8R8A8Unorm
  /\ B8G8R8A8Unorm = B8G8R8A8Unorm.
Proof.
  split; [reflexivity|].
  apply (VulkanImageFormat_injective B8G8R8A8Unorm B8G8R8A8Unorm). reflexivity.
Defined.

(** X2: the Vulkan usage flags of a union of usages are the union of the
    flags, for every format. *)
Theorem VulkanImageUsage_union (u1 u2 : Z) (f : TextureFormat) :
  VulkanImageUsage (Z.lor u1 u2) f
  = Z.lor (VulkanImageUsage u1 f) (VulkanImageUsage u2 f).
Proof.
  unfold VulkanImageUsage.
  rewrite !HasUsage_lor_l.
  destruct (HasUsage u1 TextureUsageBit.TransferSrc),
           (HasUsage u2 TextureUsageBit.TransferSrc),
           (HasUsage u1 TextureUsageBit.TransferDst),
           (HasUsage u2 TextureUsageBit.TransferDst),
           (HasUsage u1 TextureUsageBit.Sampled),
           (HasUsage u2 TextureUsageBit.Sampled),
           (HasUsage u1 TextureUsageBit.Storage),
           (HasUsage u2 TextureUsageBit.Storage),
           (HasUsage u1 TextureUsageBit.OutputAttachment),
           (HasUsage u2 TextureUsageBit.OutputAttachment),
           (TextureFormatHasDepthOrStencil f);
    reflexivity.
Qed.

(** X3: each Vulkan usage flag is set exactly when its NXT usage is: the
    transfer, sampled and storage flags follow their bits, the depth/stencil
    attachment flag needs [OutputAttachment] on a depth-or-stencil format and
    the colour attachment flag [OutputAttachment] on a colour format.
    [Present] and unknown bits set nothing. *)
Theorem VulkanImageUsage_flags (usage : Z) (f : TextureFormat) :
  let flags := VulkanImageUsage usage f in
  FlagSet flags VK_IMAGE_USAGE_TRANSFER_SRC_BIT
    = HasUsage usage TextureUsageBit.TransferSrc
  /\ FlagSet flags VK_IMAGE_USAGE_TRANSFER_DST_BIT
    = HasUsage usage TextureUsageBit.TransferDst
  /\ FlagSet flags VK_IMAGE_USAGE_SAMPLED_BIT
    = HasUsage usage TextureUsageBit.Sampled
  /\ FlagSet flags VK_IMAGE_USAGE_STORAGE_BIT
    = HasUsage usage TextureUsageBit.Storage
  /\ FlagSet flags VK_IMAGE_USAGE_DEPTH_STENCIL_ATTACHMENT_BIT
    = HasUsage usage TextureUsageBit.OutputAttachment
      && TextureFormatHasDepthOrStencil f
  /\ FlagSet flags VK_IMAGE_USAGE_COLOR_ATTACHMENT_BIT
    = HasUsage usage TextureUsageBit.OutputAttachment
      && negb (TextureFormatHasDepthOrStencil f)
  /\ Within flags 0x3f.
Proof.
  intros flags. subst flags. unfold VulkanImageUsage.
  destruct (HasUsage usage TextureUsageBit.TransferSrc),
           (HasUsage usage TextureUsageBit.TransferDst),
           (HasUsage usage TextureUsageBit.Sampled),
           (HasUsage usage TextureUsageBit.Storage),
           (HasUsage usage TextureUsageBit.OutputAttachment),
           (TextureFormatHasDepthOrStencil f);
    repeat split.
Qed.

(** A usage bit of a mask is a usage bit of every mask that contains it. *)
Lemma HasUsage_within (u1 u2 mask : Z) :
  Within u1 u2 -> implb (HasUsage u1 mask) (HasUsage u2 mask) = true.
Proof.
  unfold Within, HasUsage. intros Hsub.
  destruct (Z.eqb_spec (Z.land u2 mask) 0) as [E | _].
  - rewrite <- Hsub, <- Z.land_assoc, E, Z.land_0_r. reflexivity.
  - now destruct (Z.land u1 mask =? 0).
Qed.

(** The image usage is monotone in the usage mask. *)
Lemma VulkanImageUsage_within (u1 u2 : Z) (f : TextureFormat) :
  Within u1 u2 -> Within (VulkanImageUsage u1 f) (VulkanImageUsage u2 f).
Proof.
  intros Hsub. unfold VulkanImageUsage.
  pose proof (HasUsage_within u1 u2 TextureUsageBit.TransferSrc Hsub) as H1.
  pose proof (HasUsage_within u1 u2 TextureUsageBit.TransferDst Hsub) as H2.
  pose proof (HasUsage_within u1 u2 TextureUsageBit.Sampled Hsub) as H3.
  pose proof (HasUsage_within u1 u2 TextureUsageBit.Storage Hsub) as H4.
  pose proof (HasUsage_within u1 u2 TextureUsageBit.OutputAttachment Hsub) as H5.
  destruct (HasUsage u1 TextureUsageBit.TransferSrc),
           (HasUsage u2 TextureUsageBit.TransferSrc); try discriminate H1;
  destruct (HasUsage u1 TextureUsageBit.TransferDst),
           (HasUsage u2 TextureUsageBit.TransferDst); try discriminate H2;
  destruct (HasUsage u1 TextureUsageBit.Sampled),
           (HasUsage u2 TextureUsageBit.Sampled); try discriminate H3;
  destruct (HasUsage u1 TextureUsageBit.Storage),
           (HasUsage u2 TextureUsageBit.Storage); try discriminate H4;
  destruct (HasUsage u1 TextureUsageBit.OutputAttachment),
           (HasUsage u2 TextureUsageBit.OutputAttachment); try discriminate H5;
  destruct (TextureFormatHasDepthOrStencil f); reflexivity.
Qed.

(** X4: an image is created with the Vulkan usage flags of every usage that
    lies within its allowed usage, and in the layout that a first transition
    out of [None] names as the old layout. *)
Theorem createInfo_covers_allowed_usage (base : TextureBase) (u : Z) :
  Within u (mAllowedUsage base) ->
  Within (VulkanImageUsage u (mFormat base)) (usage (createInfo base))
  /\ TextureVk.VulkanImageLayout TextureUsageBit.None (mFormat base)
     = Some (initialLayout (createInfo base)).
Proof.
  intros Hsub. split; [|reflexivity].
  apply VulkanImageUsage_within, Hsub.
Qed.

Lemma createInfo_covers_allowed_usage_witness :
  Within TextureUsageBit.Sampled
    (mAllowedUsage {| mDimension := e2D; mFormat := R8G8B8A8Unorm;
                      mWidth := 640; mHeight := 480; mDepth := 1;
                      mNumMipLevels := 1;
                      mAllowedUsage := Z.lor TextureUsageBit.Sampled
                                             TextureUsageBit.TransferDst |})
  /\ Within (VulkanImageUsage TextureUsageBit.Sampled R8G8B8A8Unorm)
       (usage (createInfo
                 {| mDimension := e2D; mFormat := R8G8B8A8Unorm;
                    mWidth := 640; mHeight := 480; mDepth := 1;
                    mNumMipLevels := 1;
                    mAllowedUsage := Z.lor TextureUsageBit.Sampled
                                           TextureUsageBit.TransferDst |})).
Proof.
  assert (Hsub : Within TextureUsageBit.Sampled
            (Z.lor TextureUsageBit.Sampled TextureUsageBit.TransferDst))
    by reflexivity.
  split; [exact Hsub|].
  exact (proj1 (createInfo_covers_allowed_usage
                  {| mDimension := e2D; mFormat := R8G8B8A8Unorm;
                     mWidth := 640; mHeight := 480; mDepth := 1;
                     mNumMipLevels := 1;
                     mAllowedUsage := Z.lor TextureUsageBit.Sampled
                                            TextureUsageBit.TransferDst |}
                  TextureUsageBit.Sampled Hsub)).
Defined.

End ImageCreation.

(* ===================================================================== *)
(** * More on the usage -> barrier mapping                                *)
(* ===================================================================== *)

Section UsageMappingInverse.
Import nxt TextureVk.

(** ** Access mask *)

(** X5: the access mask contains a write access exactly when the usage has
    one of the writable usages [TransferDst], [Storage] or
    [OutputAttachment]; [TransferSrc], [Sampled] and [Present] only ever
    read. *)
Theorem VulkanAccessFlags_writes (usage : Z) (f : TextureFormat) :
  FlagSet (VulkanAccessFlags usage f) WriteAccesses
  = HasUsage usage TextureUsageBit.TransferDst
    || HasUsage usage TextureUsageBit.Storage
    || HasUsage usage TextureUsageBit.OutputAttachment.
Proof.
  unfold VulkanAccessFlags.
  destruct (HasUsage usage TextureUsageBit.TransferSrc),
           (HasUsage usage TextureUsageBit.TransferDst),
           (HasUsage usage TextureUsageBit.Sampled),
           (HasUsage usage TextureUsageBit.Storage),
           (HasUsage usage TextureUsageBit.OutputAttachment),
           (TextureFormatHasDepthOrStencil f);
    reflexivity.
Qed.

Lemma HasUsage_MappedUsages (usage : Z) :
  HasUsage usage MappedUsages
  = HasUsage usage TextureUsageBit.TransferSrc
    || HasUsage usage TextureUsageBit.TransferDst
    || HasUsage usage TextureUsageBit.Sampled
    || HasUsage usage TextureUsageBit.Storage
    || HasUsage usage TextureUsageBit.OutputAttachment.
Proof. unfold MappedUsages. now rewrite !HasUsage_lor_r. Qed.

(** X6: the access mask is empty exactly when none of the five mapped usages
    is set: [None], [Present] and unknown bits give no access at all. *)
Theorem VulkanAccessFlags_empty_iff (usage : Z) (f : TextureFormat) :
  VulkanAccessFlags usage f = 0 <-> HasUsage usage MappedUsages = false.
Proof.
  rewrite HasUsage_MappedUsages. unfold VulkanAccessFlags.
  destruct (HasUsage usage TextureUsageBit.TransferSrc),
           (HasUsage usage TextureUsageBit.TransferDst),
           (HasUsage usage TextureUsageBit.Sampled),
           (HasUsage usage TextureUsageBit.Storage),
           (HasUsage usage TextureUsageBit.OutputAttachment),
           (TextureFormatHasDepthOrStencil f);
    split; intros E; try reflexivity; discriminate E.
Qed.

(** ** Layout *)

(** A non-empty 32-bit mask has exactly one bit or at least two. *)
Lemma usage_bits_cases (usage : Z) :
  IsUsage usage -> usage <> 0 -> SingleBit usage \/ MoreThanOneBit usage.
Proof.
  unfold IsUsage. intros Hu Hne.
  assert (Hpos : 0 < usage) by lia.
  pose proof (Z.log2_spec usage Hpos) as Hlog.
  pose proof (Z.log2_nonneg usage) as Hk0.
  assert (Hk : Z.log2 usage < 32) by (apply Z.log2_lt_pow2; lia).
  set (k := Z.log2 usage) in *.
  destruct (Z.eq_dec usage (2 ^ k)) as [E | NE].
  - left. exists k. split; [lia | exact E].
  - right.
    assert (Hpow : 2 ^ Z.succ k = 2 * 2 ^ k) by (apply Z.pow_succ_r; lia).
    set (r := usage - 2 ^ k).
    assert (Hr : 0 < r < 2 ^ k) by (unfold r; lia).
    assert (Hj : Z.log2 r < k) by (apply Z.log2_lt_pow2; lia).
    pose proof (Z.log2_nonneg r) as Hj0.
    exists (Z.log2 r), k. split; [lia|]. split.
    + rewrite <- (Z.mod_pow2_bits_low usage k (Z.log2 r)) by lia.
      replace (usage mod 2 ^ k) with r.
      * apply Z.bit_log2. lia.
      * apply (Z.mod_unique_pos usage (2 ^ k) 1 r); unfold r; lia.
    + apply Z.bit_log2. exact Hpos.
Qed.

(** The six usages are the single bits 0 to 5. *)
Lemma small_single_bit (k : Z) :
  0 <= k < 6 ->
  2 ^ k = TextureUsageBit.TransferSrc \/ 2 ^ k = TextureUsageBit.TransferDst
  \/ 2 ^ k = TextureUsageBit.Sampled \/ 2 ^ k = TextureUsageBit.Storage
  \/ 2 ^ k = TextureUsageBit.OutputAttachment \/ 2 ^ k = TextureUsageBit.Present.
Proof.
  intros Hk.
  assert (k = 0 \/ k = 1 \/ k = 2 \/ k = 3 \/ k = 4 \/ k = 5) as Hc by lia.
  destruct Hc as [-> | [-> | [-> | [-> | [-> | ->]]]]]; tauto.
Qed.

(** The layout lookup reaches [UNREACHABLE()] only on a single bit beyond
    the six usages. *)
Lemma VulkanImageLayout_None_inv (usage : Z) (f : TextureFormat) :
  IsUsage usage -> VulkanImageLayout usage f = None ->
  exists k, 6 <= k < 32 /\ usage = 2 ^ k.
Proof.
  intros Hu Hnone.
  destruct (Z.eq_dec usage 0) as [-> | Hne]; [discriminate Hnone|].
  destruct (usage_bits_cases usage Hu Hne) as [(k & Hk & ->) | Hmany].
  - exists k. split; [|reflexivity].
    destruct (Z_lt_le_dec k 6) as [Hlt | Hge]; [exfalso | lia].
    destruct (small_single_bit k ltac:(lia)) as [E | [E | [E | [E | [E | E]]]]];
      rewrite E in Hnone; destruct f; discriminate Hnone.
  - unfold VulkanImageLayout in Hnone.
    rewrite (HasZeroOrOneBits_two_bits usage Hu Hmany) in Hnone.
    destruct (usage =? TextureUsageBit.None); discriminate Hnone.
Qed.

(** X7: on a 32-bit usage the layout lookup reaches [UNREACHABLE()] exactly
    on the single bits 6 to 31; on every other mask it returns a layout. *)
Theorem VulkanImageLayout_unreachable_iff (usage : Z) (f : TextureFormat) :
  IsUsage usage ->
  VulkanImageLayout usage f = None <-> exists k, 6 <= k < 32 /\ usage = 2 ^ k.
Proof.
  intros Hu. split.
  - apply VulkanImageLayout_None_inv, Hu.
  - intros (k & Hk & ->). apply unknown_single_bit_unreachable, Hk.
Qed.

Lemma VulkanImageLayout_unreachable_iff_witness :
  IsUsage 64 /\ VulkanImageLayout 64 R8G8B8A8Unorm = None.
Proof.
  assert (Hu : IsUsage 64) by (split; now vm_compute).
  split; [exact Hu|].
  apply (proj2 (VulkanImageLayout_unreachable_iff 64 R8G8B8A8Unorm Hu)).
  exists 6. split; [lia | reflexivity].
Defined.

(** The branch that produced a layout. *)
Lemma VulkanImageLayout_Some_inv (usage : Z) (f : TextureFormat) (l : VkImageLayout) :
  VulkanImageLayout usage f = Some l ->
  (usage = TextureUsageBit.None /\ l = VK_IMAGE_LAYOUT_UNDEFINED)
  \/ (usage <> TextureUsageBit.None /\ HasZeroOrOneBits usage = false
      /\ l = VK_IMAGE_LAYOUT_GENERAL)
  \/ (usage = TextureUsageBit.TransferDst /\ l = VK_IMAGE_LAYOUT_TRANSFER_DST_OPTIMAL)
  \/ (usage = TextureUsageBit.Sampled /\ l = VK_IMAGE_LAYOUT_SHADER_READ_ONLY_OPTIMAL)
  \/ ((usage = TextureUsageBit.TransferSrc \/ usage = TextureUsageBit.Storage
       \/ usage = TextureUsageBit.Present) /\ l = VK_IMAGE_LAYOUT_GENERAL)
  \/ (usage = TextureUsageBit.OutputAttachment
      /\ l = if TextureFormatHasDepthOrStencil f
             then VK_IMAGE_LAYOUT_DEPTH_STENCIL_ATTACHMENT_OPTIMAL
             else VK_IMAGE_LAYOUT_COLOR_ATTACHMENT_OPTIMAL).
Proof.
  unfold VulkanImageLayout.
  destruct (Z.eqb_spec usage TextureUsageBit.None) as [E0 | N0].
  { intros [= <-]. left. tauto. }
  destruct (HasZeroOrOneBits usage) eqn:Hbits; simpl negb; cbv iota.
  2: { intros [= <-]. right. left. tauto. }
  destruct (Z.eqb_spec usage TextureUsageBit.TransferDst) as [E1 | _].
  { intros [= <-]. right. right. left. tauto. }
  destruct (Z.eqb_spec usage TextureUsageBit.Sampled) as [E2 | _].
  { intros [= <-]. right. right. right. left. tauto. }
  destruct (Z.eqb_spec usage TextureUsageBit.TransferSrc) as [E3 | _].
  { intros [= <-]. right. right. right. right. left. tauto. }
  destruct (Z.eqb_spec usage TextureUsageBit.Storage) as [E4 | _].
  { intros [= <-]. right. right. right. right. left. tauto. }
  destruct (Z.eqb_spec usage TextureUsageBit.Present) as [E5 | _].
  { intros [= <-]. right. right. right. right. left. tauto. }
  simpl orb. cbv iota.
  destruct (Z.eqb_spec usage TextureUsageBit.OutputAttachment) as [E6 | _];
    [|discriminate].
  intros Hl. right. right. right. right. right. split; [exact E6|].
  destruct (TextureFormatHasDepthOrStencil f); now injection Hl.
Qed.

(** X8: the undefined layout stands for the [None] usage and for nothing
    else, so no transition towards an actual usage names
    [VK_IMAGE_LAYOUT_UNDEFINED] as its new layout. *)
Theorem VulkanImageLayout_undefined_iff (usage : Z) (f : TextureFormat) :
  VulkanImageLayout usage f = Some VK_IMAGE_LAYOUT_UNDEFINED
  <-> usage = TextureUsageBit.None.
Proof.
  split; [|intros ->; reflexivity].
  intros Hl. apply VulkanImageLayout_Some_inv in Hl.
  destruct Hl as [[E _] | [(_ & _ & E) | [[_ E] | [[_ E] | [[_ E] | [_ E]]]]]];
    try discriminate E; [exact E|].
  destruct (TextureFormatHasDepthOrStencil f); discriminate E.
Qed.

(** X9: each dedicated layout is reached from one usage only: the transfer
    destination layout from [TransferDst], the shader-read-only layout from
    [Sampled], and the two attachment layouts from [OutputAttachment], the
    format choosing between them. *)
Theorem VulkanImageLayout_dedicated_iff (usage : Z) (f : TextureFormat) :
  (VulkanImageLayout usage f = Some VK_IMAGE_LAYOUT_TRANSFER_DST_OPTIMAL
   <-> usage = TextureUsageBit.TransferDst)
  /\ (VulkanImageLayout usage f = Some VK_IMAGE_LAYOUT_SHADER_READ_ONLY_OPTIMAL
      <-> usage = TextureUsageBit.Sampled)
  /\ (VulkanImageLayout usage f = Some VK_IMAGE_LAYOUT_DEPTH_STENCIL_ATTACHMENT_OPTIMAL
      <-> usage = TextureUsageBit.OutputAttachment
          /\ TextureFormatHasDepthOrStencil f = true)
  /\ (VulkanImageLayout usage f = Some VK_IMAGE_LAYOUT_COLOR_ATTACHMENT_OPTIMAL
      <-> usage = TextureUsageBit.OutputAttachment
          /\ TextureFormatHasDepthOrStencil f = false).
Proof.
  split; [|split; [|split]]; (split; [intros Hl | ]).
  - apply VulkanImageLayout_Some_inv in Hl.
    destruct Hl as [[_ E] | [(_ & _ & E) | [[U E] | [[_ E] | [[_ E] | [_ E]]]]]];
      try discriminate E; [exact U|].
    destruct (TextureFormatHasDepthOrStencil f); discriminate E.
  - intros ->. reflexivity.
  - apply VulkanImageLayout_Some_inv in Hl.
    destruct Hl as [[_ E] | [(_ & _ & E) | [[_ E] | [[U E] | [[_ E] | [_ E]]]]]];
      try discriminate E; [exact U|].
    destruct (TextureFormatHasDepthOrStencil f); discriminate E.
  - intros ->. reflexivity.
  - apply VulkanImageLayout_Some_inv in Hl.
    destruct Hl as [[_ E] | [(_ & _ & E) | [[_ E] | [[_ E] | [[_ E] | [U E]]]]]];
      try discriminate E.
    destruct (TextureFormatHasDepthOrStencil f); [tauto | discriminate E].
  - intros [-> Hds]. unfold VulkanImageLayout. simpl. now rewrite Hds.
  - apply VulkanImageLayout_Some_inv in Hl.
    destruct Hl as [[_ E] | [(_ & _ & E) | [[_ E] | [[_ E] | [[_ E] | [U E]]]]]];
      try discriminate E.
    destruct (TextureFormatHasDepthOrStencil f); [discriminate E | tauto].
  - intros [-> Hds]. unfold VulkanImageLayout. simpl. now rewrite Hds.
Qed.

(** X10: on a 32-bit usage the general layout is chosen exactly for the
    masks with several bits and for the single usages [TransferSrc],
    [Storage] and [Present]. *)
Theorem VulkanImageLayout_general_iff (usage : Z) (f : TextureFormat) :
  IsUsage usage ->
  VulkanImageLayout usage f = Some VK_IMAGE_LAYOUT_GENERAL
  <-> MoreThanOneBit usage
      \/ usage = TextureUsageBit.TransferSrc
      \/ usage = TextureUsageBit.Storage
      \/ usage = TextureUsageBit.Present.
Proof.
  intros Hu. split.
  - intros Hgen.
    destruct (Z.eq_dec usage 0) as [-> | Hne]; [discriminate Hgen|].
    destruct (usage_bits_cases usage Hu Hne) as [Hone | Hmany]; [right | now left].
    unfold VulkanImageLayout in Hgen.
    rewrite (HasZeroOrOneBits_single_bit usage (or_intror Hone)) in Hgen.
    simpl negb in Hgen. cbv iota in Hgen.
    destruct (usage =? TextureUsageBit.None); [discriminate Hgen|].
    destruct (usage =? TextureUsageBit.TransferDst); [discriminate Hgen|].
    destruct (usage =? TextureUsageBit.Sampled); [discriminate Hgen|].
    destruct (Z.eqb_spec usage TextureUsageBit.TransferSrc); [tauto|].
    destruct (Z.eqb_spec usage TextureUsageBit.Storage); [tauto|].
    destruct (Z.eqb_spec usage TextureUsageBit.Present); [tauto|].
    simpl in Hgen.
    destruct (usage =? TextureUsageBit.OutputAttachment); [|discriminate Hgen].
    destruct (TextureFormatHasDepthOrStencil f); discriminate Hgen.
  - intros [Hmany | [-> | [-> | ->]]]; try reflexivity.
    unfold VulkanImageLayout.
    rewrite (HasZeroOrOneBits_two_bits usage Hu Hmany).
    destruct (Z.eqb_spec usage TextureUsageBit.None) as [E | _]; [|reflexivity].
    destruct Hmany as (i & _ & _ & Hi & _).
    rewrite E, Z.bits_0 in Hi. discriminate Hi.
Qed.

Lemma VulkanImageLayout_general_iff_witness :
  IsUsage TextureUsageBit.Storage
  /\ VulkanImageLayout TextureUsageBit.Storage D32FloatS8Uint
     = Some VK_IMAGE_LAYOUT_GENERAL.
Proof.
  assert (Hu : IsUsage TextureUsageBit.Storage) by (split; now vm_compute).
  split; [exact Hu|].
  apply (proj2 (VulkanImageLayout_general_iff TextureUsageBit.Storage D32FloatS8Uint Hu)).
  right. right. left. reflexivity.
Defined.

End UsageMappingInverse.

(* ===================================================================== *)
(** * Stage mask, aspect mask and recorded barriers                       *)
(* ===================================================================== *)

Section StagesAndBarriers.
Import nxt TextureVk.

(** X11: away from [None] the stage mask is a union over the usage bits:
    the stages of [u1 | u2] are those of [u1] together with those of [u2]. *)
Theorem VulkanPipelineStage_union (u1 u2 : Z) (f : TextureFormat) :
  u1 <> TextureUsageBit.None -> u2 <> TextureUsageBit.None ->
  VulkanPipelineStage (Z.lor u1 u2) f
  = Z.lor (VulkanPipelineStage u1 f) (VulkanPipelineStage u2 f).
Proof.
  intros H1 H2.
  assert (H12 : Z.lor u1 u2 <> TextureUsageBit.None).
  { unfold TextureUsageBit.None in *. rewrite Z.lor_eq_0_iff. tauto. }
  rewrite !VulkanPipelineStage_not_None by assumption.
  rewrite !HasUsage_lor_l.
  destruct (HasUsage u1 TextureUsageBit.TransferSrc),
           (HasUsage u2 TextureUsageBit.TransferSrc),
           (HasUsage u1 TextureUsageBit.TransferDst),
           (HasUsage u2 TextureUsageBit.TransferDst),
           (HasUsage u1 TextureUsageBit.Sampled),
           (HasUsage u2 TextureUsageBit.Sampled),
           (HasUsage u1 TextureUsageBit.Storage),
           (HasUsage u2 TextureUsageBit.Storage),
           (HasUsage u1 TextureUsageBit.OutputAttachment),
           (HasUsage u2 TextureUsageBit.OutputAttachment),
           (TextureFormatHasDepthOrStencil f);
    reflexivity.
Qed.

Lemma VulkanPipelineStage_union_witness :
  TextureUsageBit.TransferDst <> TextureUsageBit.None
  /\ TextureUsageBit.Sampled <> TextureUsageBit.None
  /\ VulkanPipelineStage
       (Z.lor TextureUsageBit.TransferDst TextureUsageBit.Sampled) R8G8B8A8Unorm
     = Z.lor (VulkanPipelineStage TextureUsageBit.TransferDst R8G8B8A8Unorm)
             (VulkanPipelineStage TextureUsageBit.Sampled R8G8B8A8Unorm).
Proof.
  assert (H1 : TextureUsageBit.TransferDst <> TextureUsageBit.None) by discriminate.
  assert (H2 : TextureUsageBit.Sampled <> TextureUsageBit.None) by discriminate.
  split; [exact H1|]. split; [exact H2|].
  apply (VulkanPipelineStage_union _ _ R8G8B8A8Unorm H1 H2).
Defined.

(** X12: the top-of-pipe stage is in the stage mask exactly for the [None]
    usage. *)
Theorem VulkanPipelineStage_top_of_pipe (usage : Z) (f : TextureFormat) :
  StageIncluded (VulkanPipelineStage usage f) VK_PIPELINE_STAGE_TOP_OF_PIPE_BIT
  = (usage =? TextureUsageBit.None).
Proof.
  destruct (Z.eqb_spec usage TextureUsageBit.None) as [-> | Hne]; [reflexivity|].
  rewrite (VulkanPipelineStage_not_None usage f Hne).
  destruct (HasUsage usage TextureUsageBit.TransferSrc),
           (HasUsage usage TextureUsageBit.TransferDst),
           (HasUsage usage TextureUsageBit.Sampled),
           (HasUsage usage TextureUsageBit.Storage),
           (HasUsage usage TextureUsageBit.OutputAttachment),
           (TextureFormatHasDepthOrStencil f);
    reflexivity.
Qed.

(** X13: the stage mask is empty exactly for a usage other than [None] that
    has none of the five mapped usages ([Present] alone, unknown bits). *)
Theorem VulkanPipelineStage_empty_iff (usage : Z) (f : TextureFormat) :
  VulkanPipelineStage usage f = 0
  <-> usage <> TextureUsageBit.None /\ HasUsage usage MappedUsages = false.
Proof.
  destruct (Z.eq_dec usage TextureUsageBit.None) as [-> | Hne].
  - split; [discriminate | intros [Hne _]; now contradiction Hne].
  - rewrite (VulkanPipelineStage_not_None usage f Hne), HasUsage_MappedUsages.
    destruct (HasUsage usage TextureUsageBit.TransferSrc),
             (HasUsage usage TextureUsageBit.TransferDst),
             (HasUsage usage TextureUsageBit.Sampled),
             (HasUsage usage TextureUsageBit.Storage),
             (HasUsage usage TextureUsageBit.OutputAttachment),
             (TextureFormatHasDepthOrStencil f);
      split; try (intros E; discriminate E); try (intros [_ E]; discriminate E);
      try (intros _; split; [exact Hne | reflexivity]); reflexivity.
Qed.

(** X14: the access mask and the stage mask of a usage go together: a
    transfer access is present exactly when the transfer stage is, a shader
    access exactly when the shader stages are, a colour attachment access
    exactly when the colour-output stage is, and a depth/stencil attachment
    access exactly when the fragment-test stages are. *)
Theorem access_and_stage_agree (usage : Z) (f : TextureFormat) :
  let access := VulkanAccessFlags usage f in
  let stages := VulkanPipelineStage usage f in
  FlagSet access (Z.lor VK_ACCESS_TRANSFER_READ_BIT VK_ACCESS_TRANSFER_WRITE_BIT)
    = StageIncluded stages VK_PIPELINE_STAGE_TRANSFER_BIT
  /\ FlagSet access (Z.lor VK_ACCESS_SHADER_READ_BIT VK_ACCESS_SHADER_WRITE_BIT)
    = StageIncluded stages VK_PIPELINE_STAGE_VERTEX_SHADER_BIT
  /\ FlagSet access (Z.lor VK_ACCESS_SHADER_READ_BIT VK_ACCESS_SHADER_WRITE_BIT)
    = StageIncluded stages VK_PIPELINE_STAGE_FRAGMENT_SHADER_BIT
  /\ FlagSet access (Z.lor VK_ACCESS_SHADER_READ_BIT VK_ACCESS_SHADER_WRITE_BIT)
    = StageIncluded stages VK_PIPELINE_STAGE_COMPUTE_SHADER_BIT
  /\ FlagSet access (Z.lor VK_ACCESS_COLOR_ATTACHMENT_READ_BIT
                           VK_ACCESS_COLOR_ATTACHMENT_WRITE_BIT)
    = StageIncluded stages VK_PIPELINE_STAGE_COLOR_ATTACHMENT_OUTPUT_BIT
  /\ FlagSet access (Z.lor VK_ACCESS_DEPTH_STENCIL_ATTACHMENT_READ_BIT
                           VK_ACCESS_DEPTH_STENCIL_ATTACHMENT_WRITE_BIT)
    = StageIncluded stages VK_PIPELINE_STAGE_EARLY_FRAGMENT_TESTS_BIT
  /\ FlagSet access (Z.lor VK_ACCESS_DEPTH_STENCIL_ATTACHMENT_READ_BIT
                           VK_ACCESS_DEPTH_STENCIL_ATTACHMENT_WRITE_BIT)
    = StageIncluded stages VK_PIPELINE_STAGE_LATE_FRAGMENT_TESTS_BIT.
Proof.
  intros access stages. subst access stages.
  destruct (Z.eq_dec usage TextureUsageBit.None) as [-> | Hne].
  - repeat split.
  - rewrite (VulkanPipelineStage_not_None usage f Hne). unfold VulkanAccessFlags.
    destruct (HasUsage usage TextureUsageBit.TransferSrc),
             (HasUsage usage TextureUsageBit.TransferDst),
             (HasUsage usage TextureUsageBit.Sampled),
             (HasUsage usage TextureUsageBit.Storage),
             (HasUsage usage TextureUsageBit.OutputAttachment),
             (TextureFormatHasDepthOrStencil f);
      repeat split.
Qed.

(** X15: the aspect mask is never empty and never mixes colour with depth or
    stencil; and an output attachment gets the colour attachment layout
    exactly when its aspect is the colour aspect. *)
Theorem VulkanAspectMask_exclusive (f : TextureFormat) :
  VulkanAspectMask f <> 0
  /\ FlagSet (VulkanAspectMask f) VK_IMAGE_ASPECT_COLOR_BIT
     = negb (FlagSet (VulkanAspectMask f)
               (Z.lor VK_IMAGE_ASPECT_DEPTH_BIT VK_IMAGE_ASPECT_STENCIL_BIT))
  /\ (VulkanImageLayout TextureUsageBit.OutputAttachment f
        = Some VK_IMAGE_LAYOUT_COLOR_ATTACHMENT_OPTIMAL
      <-> VulkanAspectMask f = VK_IMAGE_ASPECT_COLOR_BIT).
Proof.
  destruct f; (split; [discriminate|]); (split; [reflexivity|]);
    split; intros E; try reflexivity; discriminate E.
Qed.

(** ** Recorded barriers *)

(** On a usage made of the six known bits the layout lookup returns. *)
Lemma VulkanImageLayout_known (usage : Z) (f : TextureFormat) :
  KnownUsage usage -> exists l, VulkanImageLayout usage f = Some l.
Proof.
  unfold KnownUsage. intros Hk.
  destruct (VulkanImageLayout usage f) as [l|] eqn:E; [now exists l|].
  apply VulkanImageLayout_None_inv in E; [|unfold IsUsage; lia].
  destruct E as (k & Hk6 & ->).
  assert (2 ^ 6 <= 2 ^ k) by (apply Z.pow_le_mono_r; lia).
  change (2 ^ 6) with 64 in *. lia.
Qed.

(** X16: between usages made of the six known bits [RecordBarrier] always
    returns.  It keeps the calls logged so far and adds exactly one
    [CmdPipelineBarrier] on the given command buffer, with one image barrier:
    on the texture's own handle, over all its mip levels from level 0 and one
    array layer, without queue family transfer, and with the layouts, access
    and stage masks of the two usages. *)
Theorem RecordBarrier_known_usages (self : Texture) (commands : VkCommandBuffer)
    (currentUsage targetUsage : Z) (log : list DeviceCall) :
  KnownUsage currentUsage -> KnownUsage targetUsage ->
  exists b,
    RecordBarrier self commands currentUsage targetUsage log
    = Some (log ++ [fn_CmdPipelineBarrier commands
                      (VulkanPipelineStage currentUsage (GetFormat self))
                      (VulkanPipelineStage targetUsage (GetFormat self)) 0 [b]])
    /\ image b = GetHandle self
    /\ srcQueueFamilyIndex b = dstQueueFamilyIndex b
    /\ baseMipLevel (subresourceRange b) = 0
    /\ levelCount (subresourceRange b) = GetNumMipLevels self
    /\ baseArrayLayer (subresourceRange b) = 0
    /\ layerCount (subresourceRange b) = 1
    /\ aspectMask (subresourceRange b) = GetVkAspectMask self
    /\ VulkanImageLayout currentUsage (GetFormat self) = Some (oldLayout b)
    /\ VulkanImageLayout targetUsage (GetFormat self) = Some (newLayout b)
    /\ srcAccessMask b = VulkanAccessFlags currentUsage (GetFormat self)
    /\ dstAccessMask b = VulkanAccessFlags targetUsage (GetFormat self).
Proof.
  intros Hc Ht.
  destruct (VulkanImageLayout_known currentUsage (GetFormat self) Hc) as [old Hold].
  destruct (VulkanImageLayout_known targetUsage (GetFormat self) Ht) as [new Hnew].
  unfold RecordBarrier. rewrite Hold, Hnew.
  eexists. split; [reflexivity|]. simpl. repeat split.
Qed.

Lemma RecordBarrier_known_usages_witness :
  KnownUsage TextureUsageBit.TransferDst
  /\ KnownUsage (Z.lor TextureUsageBit.Sampled TextureUsageBit.Storage)
  /\ exists b,
       RecordBarrier tex_rgba 1 TextureUsageBit.TransferDst
         (Z.lor TextureUsageBit.Sampled TextureUsageBit.Storage) []
       = Some ([] ++ [fn_CmdPipelineBarrier 1
                        (VulkanPipelineStage TextureUsageBit.TransferDst
                           (GetFormat tex_rgba))
                        (VulkanPipelineStage
                           (Z.lor TextureUsageBit.Sampled TextureUsageBit.Storage)
                           (GetFormat tex_rgba)) 0 [b]])
       /\ image b = GetHandle tex_rgba.
Proof.
  assert (H1 : KnownUsage TextureUsageBit.TransferDst) by (split; now vm_compute).
  assert (H2 : KnownUsage (Z.lor TextureUsageBit.Sampled TextureUsageBit.Storage))
    by (split; now vm_compute).
  split; [exact H1|]. split; [exact H2|].
  destruct (RecordBarrier_known_usages tex_rgba 1 _ _ [] H1 H2) as (b & Hrec & Himg & _).
  exists b. split; [exact Hrec | exact Himg].
Defined.

(** X17: two transitions recorded one after the other, [a -> b] then
    [b -> c], are logged in that order after the earlier calls, and the
    second starts where the first ended: its source access mask, source
    stage mask and old layout are the destination access mask, destination
    stage mask and new layout of the first, over the same aspects. *)
Theorem RecordBarrier_chain (self : Texture) (commands : VkCommandBuffer)
    (a b c : Z) (log log1 log2 : list DeviceCall) :
  RecordBarrier self commands a b log = Some log1 ->
  RecordBarrier self commands b c log1 = Some log2 ->
  exists call1 call2 t1 t2,
    log2 = log ++ [call1; call2]
    /\ transition_of call1 = Some t1
    /\ transition_of call2 = Some t2
    /\ t_srcAccess t2 = t_dstAccess t1
    /\ t_srcStages t2 = t_dstStages t1
    /\ t_oldLayout t2 = t_newLayout t1
    /\ t_aspect t2 = t_aspect t1.
Proof.
  unfold RecordBarrier. intros Hab Hbc.
  destruct (VulkanImageLayout a (GetFormat self)) as [la|]; [|discriminate Hab].
  destruct (VulkanImageLayout b (GetFormat self)) as [lb|]; [|discriminate Hab].
  destruct (VulkanImageLayout c (GetFormat self)) as [lc|]; [|discriminate Hbc].
  injection Hab as <-. injection Hbc as <-.
  do 4 eexists. rewrite <- app_assoc. simpl.
  split; [reflexivity|]. split; [reflexivity|]. split; [reflexivity|].
  repeat split.
Qed.

Lemma RecordBarrier_chain_witness :
  exists log1 log2 call1 call2 t1 t2,
    RecordBarrier tex_rgba 1 TextureUsageBit.None TextureUsageBit.TransferDst []
    = Some log1
    /\ RecordBarrier tex_rgba 1 TextureUsageBit.TransferDst TextureUsageBit.Sampled log1
       = Some log2
    /\ log2 = [] ++ [call1; call2]
    /\ transition_of call1 = Some t1
    /\ transition_of call2 = Some t2
    /\ t_oldLayout t2 = t_newLayout t1
    /\ t_newLayout t1 = VK_IMAGE_LAYOUT_TRANSFER_DST_OPTIMAL.
Proof.
  destruct (RecordBarrier_chain tex_rgba 1 TextureUsageBit.None
              TextureUsageBit.TransferDst TextureUsageBit.Sampled [] _ _
              eq_refl eq_refl)
    as (call1 & call2 & t1 & t2 & Hlog & H1 & H2 & _ & _ & Hl & _).
  do 2 eexists. exists call1, call2, t1, t2.
  split; [reflexivity|]. split; [reflexivity|]. split; [exact Hlog|].
  split; [exact H1|]. split; [exact H2|]. split; [exact Hl|].
  injection Hlog as <- _. injection H1 as <-. reflexivity.
Defined.

End StagesAndBarriers.

(* ===================================================================== *)
(** * The reference helpers of the test and the remaining tests           *)
(* ===================================================================== *)

Section ReferenceHelpers.
Import ObjectBaseTests ObjectBaseOtherTests.

Example Clone_test_passes :
  Clone_test = Some (Some 3, Some refcount, Some refcount, Some 1).
Proof. vm_compute. reflexivity. Qed.

Example Release_test_passes :
  Release_test = Some (Some 2, Some refcount, None, Some 2, Some 2).
Proof. vm_compute. reflexivity. Qed.

Example OperatorBool_test_passes : OperatorBool_test = Some false.
Proof. vm_compute. reflexivity. Qed.



(** X19: the other way round it depends on the count.  Above 1,
    [NxtRelease] followed by [NxtReference] gives the memory back; at exactly
    1 the release brings the count to 0, the assertion of [NxtReference]
    then fails, and the count stays 0 with the failure recorded. *)
Theorem NxtRelease_then_NxtReference (h : loc) (c : Z) (m : Memory) :
  ints m !! h = Some c -> 0 < c ->
  NxtRelease h m ≫= NxtReference h
  = Some (if c =? 1 then fail (store h 0 m) else m).
Proof.
  intros Hc Hpos.
  assert (Hrange : INT_MIN <= c <= INT_MAX) by (apply ints_lookup in Hc; tauto).
  rewrite (NxtRelease_live h c m Hc Hpos). simpl.
  assert (Hdown : read h (store h (c - 1) m) = Some (c - 1))
    by (apply read_store; unfold INT_MIN in *; lia).
  destruct (Z.eqb_spec c 1) as [-> | Hne].
  - unfold NxtReference. change (1 - 1) with 0 in *.
    unfold read in Hdown. rewrite Hdown. reflexivity.
  - rewrite (NxtReference_live h (c - 1) _ Hdown) by lia.
    replace (c - 1 + 1) with c by lia.
    now rewrite store_store_id.
Qed.

Lemma NxtRelease_then_NxtReference_witness :
  ints initial !! refcount = Some 1
  /\ 0 < 1
  /\ NxtRelease refcount initial ≫= NxtReference refcount
     = Some (fail (store refcount 0 initial)).
Proof.
  assert (Hc : ints initial !! refcount = Some 1) by (now vm_compute).
  assert (Hpos : 0 < 1) by lia.
  split; [exact Hc|]. split; [exact Hpos|].
  exact (NxtRelease_then_NxtReference refcount 1 initial Hc Hpos).
Defined.

(** X20: on a handle with a non-negative count [NxtRelease] returns; it takes
    exactly one off a positive count and leaves a zero count alone, so the
    count never goes below zero; it records a failure exactly in the second
    case and never clears one; and it leaves the integers behind all other
    handles alone. *)
Theorem NxtRelease_keeps_counts_nonnegative (h : loc) (c : Z) (m : Memory) :
  ints m !! h = Some c -> 0 <= c ->
  exists m',
    NxtRelease h m = Some m'
    /\ read h m' = Some (if 0 <? c then c - 1 else c)
    /\ 0 <= (if 0 <? c then c - 1 else c)
    /\ failed m' = failed m || (c =? 0)
    /\ (forall l, l <> h -> read l m' = read l m).
Proof.
  intros Hc Hnn.
  assert (Hrange : INT_MIN <= c <= INT_MAX) by (apply ints_lookup in Hc; tauto).
  destruct (Z.ltb_spec 0 c) as [Hpos | Hzero].
  - exists (store h (c - 1) m).
    split; [apply (NxtRelease_live h c m Hc Hpos)|].
    split; [apply read_store; unfold INT_MIN in *; lia|].
    split; [lia|]. split.
    + simpl. destruct (Z.eqb_spec c 0); [lia|]. now rewrite orb_false_r.
    + intros l Hl. apply read_store_ne. congruence.
  - assert (c = 0) as -> by lia.
    exists (fail m). unfold NxtRelease. rewrite Hc. simpl.
    split; [reflexivity|]. split; [exact Hc|]. split; [lia|].
    split; [now rewrite orb_true_r | reflexivity].
Qed.

Lemma NxtRelease_keeps_counts_nonnegative_witness :
  ints initial !! refcount = Some 1
  /\ 0 <= 1
  /\ exists m',
       NxtRelease refcount initial = Some m'
       /\ read refcount m' = Some (if 0 <? 1 then 1 - 1 else 1).
Proof.
  assert (Hc : ints initial !! refcount = Some 1) by (now vm_compute).
  assert (Hnn : 0 <= 1) by lia.
  split; [exact Hc|]. split; [exact Hnn|].
  destruct (NxtRelease_keeps_counts_nonnegative refcount 1 initial Hc Hnn)
    as (m' & Hrel & Hread & _).
  exists m'. split; [exact Hrel | exact Hread].
Defined.

(** X21: wrappers that live in nested scopes leave no trace: constructing a
    wrapper from a handle with a positive count that is at least two below
    [INT_MAX], cloning it, and destroying the clone and then the original
    gives back the memory exactly as it was, the count being two higher in
    between. *)
Theorem nested_wrappers_balance (h : loc) (c : Z) (m : Memory) :
  ints m !! h = Some c -> 0 < c < INT_MAX - 1 ->
  exists obj1 obj2 m1 m2 m3,
    Object_ctor (Some h) m = Some (obj1, m1)
    /\ Clone obj1 m1 = Some (obj2, m2)
    /\ Get obj1 = Some h /\ Get obj2 = Some h
    /\ read h m2 = Some (c + 2)
    /\ Object_dtor obj2 m2 = Some m3
    /\ Object_dtor obj1 m3 = Some m.
Proof.
  intros Hc Hpos.
  assert (Hrange : INT_MIN <= c <= INT_MAX) by (apply ints_lookup in Hc; tauto).
  exists {| handle := Some h |}, {| handle := Some h |},
    (store h (c + 1) m), (store h (c + 2) (store h (c + 1) m)), (store h (c + 1) m).
  assert (R1 : read h (store h (c + 1) m) = Some (c + 1))
    by (apply read_store; unfold INT_MIN in *; lia).
  assert (R2 : read h (store h (c + 2) (store h (c + 1) m)) = Some (c + 2))
    by (apply read_store; unfold INT_MIN in *; lia).
  assert (H1 : NxtReference h m = Some (store h (c + 1) m))
    by (apply NxtReference_live; [assumption | lia]).
  assert (H2 : NxtReference h (store h (c + 1) m)
               = Some (store h (c + 2) (store h (c + 1) m))).
  { rewrite (NxtReference_live h (c + 1) _ R1) by lia.
    now replace (c + 1 + 1) with (c + 2) by lia. }
  assert (H3 : NxtRelease h (store h (c + 2) (store h (c + 1) m))
               = Some (store h (c + 1) m)).
  { rewrite (NxtRelease_live h (c + 2) _ R2) by lia.
    replace (c + 2 - 1) with (c + 1) by lia.
    now rewrite (store_store_id h (c + 1) (c + 2) _ R1). }
  assert (H4 : NxtRelease h (store h (c + 1) m) = Some m).
  { rewrite (NxtRelease_live h (c + 1) _ R1) by lia.
    replace (c + 1 - 1) with c by lia. now rewrite store_store_id. }
  unfold Object_ctor, Clone, Object_ctor, Object_dtor. simpl.
  rewrite H1, H2, H3, H4. simpl.
  repeat split. exact R2.
Qed.

Lemma nested_wrappers_balance_witness :
  ints initial !! refcount = Some 1
  /\ 0 < 1 < INT_MAX - 1
  /\ exists obj1 obj2 m1 m2 m3,
       Object_ctor (Some refcount) initial = Some (obj1, m1)
       /\ Clone obj1 m1 = Some (obj2, m2)
       /\ Get obj1 = Some refcount /\ Get obj2 = Some refcount
       /\ read refcount m2 = Some (1 + 2)
       /\ Object_dtor obj2 m2 = Some m3
       /\ Object_dtor obj1 m3 = Some initial.
Proof.
  assert (Hc : ints initial !! refcount = Some 1) by (now vm_compute).
  assert (Hpos : 0 < 1 < INT_MAX - 1) by (split; now vm_compute).
  split; [exact Hc|]. split; [exact Hpos|].
  exact (nested_wrappers_balance refcount 1 initial Hc Hpos).
Defined.

End ReferenceHelpers.
